(** * flask-keycloak-oidc-demo: token lifecycle and verification

    A shallow embedding of the two Flask programs of the repository,

    - [app/app.py]: the relying party ([decode_jwt], [callback]), and
    - [resource_server/app.py]: the resource server ([get_keycloak_jwks],
      [validate_token], [protected_resource]),

    followed by the properties of the specification that concern them.

    Python values are modelled by [pyval], exceptions by [exn] (a class
    and a message), and a Python function that reads or writes process
    state ([session], [_cached_jwks]) by the state-and-exception monad
    [M]: state written before an exception is raised stays written, as
    in Python.  Calls that leave the process ([requests.get],
    [requests.post]) and library functions ([base64.urlsafe_b64decode],
    [json.loads], [jose.jwt.decode]) are parameters of the sections that
    use them. [print] is logging only and is left out. *)

From Stdlib Require Import Ascii String ZArith.
From stdpp Require Import base strings list gmap pretty.

#[local] Set Warnings "-register-all".
#[local] Open Scope string_scope.

(** ** Python values and exceptions *)

(** The values [json.loads] and [Response.json] produce. Numbers are
    the integers: neither program reads a number from a body or a claim. *)
Inductive pyval : Type :=
| PNone
| PBool (b : bool)
| PInt (z : Z)
| PStr (s : string)
| PList (l : list pyval)
| PDict (d : list (string * pyval)).

(** The exception classes the two programs raise, catch or let through. *)
Inductive exn_class : Type :=
| Exception
| ValueError
| JSONDecodeError            (* json.JSONDecodeError(ValueError) *)
| BinasciiError              (* binascii.Error(ValueError) *)
| AttributeError
| IndexError
| ConnectionError            (* the builtin, an OSError *)
| RequestException           (* requests.exceptions.RequestException *)
| HTTPError                  (* requests.exceptions.HTTPError(RequestException) *)
| RequestsJSONDecodeError    (* requests.exceptions.JSONDecodeError *)
| JOSEError
| JWTError                   (* jose.exceptions.JWTError(JOSEError) *)
| JWTClaimsError             (* jose.exceptions.JWTClaimsError(JWTError) *)
| JWKError.                  (* jose.exceptions.JWKError(JOSEError) *)

#[global] Instance exn_class_eq_dec : EqDecision exn_class.
Proof. solve_decision. Defined.

(** The direct base classes of a class; [Exception] is the root. *)
Definition bases (c : exn_class) : list exn_class :=
  match c with
  | Exception => []
  | JSONDecodeError | BinasciiError => [ValueError]
  | HTTPError => [RequestException]
  | RequestsJSONDecodeError => [RequestException; JSONDecodeError]
  | JWTError | JWKError => [JOSEError]
  | JWTClaimsError => [JWTError]
  | ValueError | AttributeError | IndexError | ConnectionError
  | RequestException | JOSEError => [Exception]
  end.

(** [issubclass c d]; the hierarchy is three levels deep below [Exception]. *)
Fixpoint issubclass_upto (n : nat) (c d : exn_class) : bool :=
  bool_decide (c = d) ||
  match n with
  | O => false
  | S n' => existsb (fun b => issubclass_upto n' b d) (bases c)
  end.

Definition issubclass : exn_class → exn_class → bool := issubclass_upto 4.

Record exn : Type := Exn { exn_cls : exn_class; exn_msg : string }.

(** [isinstance(e, c)], the test of an [except c] clause. *)
Definition isinstance (e : exn) (c : exn_class) : bool := issubclass (exn_cls e) c.

(** The outcome of a call: a value, or a raised exception. *)
Inductive result (A : Type) : Type :=
| Ok (a : A)
| Raise (e : exn).
Arguments Ok {A} a.
Arguments Raise {A} e.

(** ** The state-and-exception monad *)

Definition M (S A : Type) : Type := S → result A * S.

Definition ret {S A} (a : A) : M S A := fun s => (Ok a, s).
Definition raise {S A} (e : exn) : M S A := fun s => (Raise e, s).
Definition bind {S A B} (m : M S A) (k : A → M S B) : M S B :=
  fun s => match m s with
           | (Ok a, s') => k a s'
           | (Raise e, s') => (Raise e, s')
           end.
Definition lift {S A} (r : result A) : M S A := fun s => (r, s).
Definition get_state {S} : M S S := fun s => (Ok s, s).
Definition modify {S} (f : S → S) : M S unit := fun s => (Ok tt, f s).

(** [try: body / except ...: handlers].  [handlers e] is the body of the
    first clause that matches [e], or [None] when no clause does and the
    exception goes on. *)
Definition try_except {S A} (body : M S A) (handlers : exn → option (M S A)) : M S A :=
  fun s => match body s with
           | (Ok a, s') => (Ok a, s')
           | (Raise e, s') =>
               match handlers e with
               | Some h => h s'
               | None => (Raise e, s')
               end
           end.

Declare Scope py_scope.
Delimit Scope py_scope with py.
Notation "'let!' x ':=' m 'in' k" := (bind m (fun x => k))
  (at level 10, x name, m at level 100, k at level 200) : py_scope.
Notation "'do!' m 'in' k" := (bind m (fun _ => k))
  (at level 10, m at level 100, k at level 200) : py_scope.
#[local] Open Scope py_scope.

(** ** Operations on Python values *)

(** Truth value of an object, as [if x], [not x] and [x or y] take it. *)
Definition truthy (v : pyval) : bool :=
  match v with
  | PNone => false
  | PBool b => b
  | PInt z => negb (Z.eqb z 0)
  | PStr s => negb (bool_decide (s = ""))
  | PList l => negb (bool_decide (length l = 0%nat))
  | PDict d => negb (bool_decide (length d = 0%nat))
  end.

Definition is_None (v : pyval) : bool :=
  match v with PNone => true | _ => false end.

Fixpoint assoc {V} (k : string) (d : list (string * V)) : option V :=
  match d with
  | [] => None
  | (k', v) :: d' => if bool_decide (k = k') then Some v else assoc k d'
  end.

(** [obj.get(key, default)]: only a dict has the method. *)
Definition py_get_default (obj : pyval) (key : string) (default : pyval) : result pyval :=
  match obj with
  | PDict d => Ok (from_option id default (assoc key d))
  | _ => Raise (Exn AttributeError "object has no attribute 'get'")
  end.

(** [obj.get(key)] *)
Definition py_get (obj : pyval) (key : string) : result pyval :=
  py_get_default obj key PNone.

(** [s.split(sep)] for a one-character separator: never the empty list. *)
Fixpoint split_on (sep : ascii) (s : string) : list string :=
  match s with
  | EmptyString => [EmptyString]
  | String c rest =>
      if bool_decide (c = sep) then EmptyString :: split_on sep rest
      else match split_on sep rest with
           | [] => [String c EmptyString]
           | h :: t => String c h :: t
           end
  end.

(** [obj.split(sep)]: only a str has the method. *)
Definition py_split (obj : pyval) (sep : ascii) : result (list string) :=
  match obj with
  | PStr s => Ok (split_on sep s)
  | _ => Raise (Exn AttributeError "object has no attribute 'split'")
  end.

(** [c * n] for a one-character string [c]. *)
Fixpoint str_mul (c : ascii) (n : nat) : string :=
  match n with
  | O => EmptyString
  | S n' => String c (str_mul c n')
  end.

(** The ASCII characters [str.isspace] accepts. *)
Definition isspace (c : ascii) : bool :=
  let n := nat_of_ascii c in
  ((9 <=? n) && (n <=? 13) || (28 <=? n) && (n <=? 32))%nat.

Fixpoint lstrip (s : string) : string :=
  match s with
  | EmptyString => EmptyString
  | String c rest => if isspace c then lstrip rest else s
  end.

Definition str_rev (s : string) : string :=
  string_of_list_ascii (rev (list_ascii_of_string s)).

(** [s.strip()] *)
Definition strip (s : string) : string := str_rev (lstrip (str_rev (lstrip s))).

(** [obj.strip()]: only a str has the method. *)
Definition py_strip (obj : pyval) : result string :=
  match obj with
  | PStr s => Ok (strip s)
  | _ => Raise (Exn AttributeError "object has no attribute 'strip'")
  end.

(** [s.startswith(p)] *)
Fixpoint startswith (p s : string) : bool :=
  match p, s with
  | EmptyString, _ => true
  | String a p', String b s' => bool_decide (a = b) && startswith p' s'
  | String _ _, EmptyString => false
  end.

(** What [requests] hands back: the attributes and methods of
    [requests.Response] that the two programs use. *)
Record response : Type := Response {
  ok : bool;
  status_code : Z;
  text : string;
  json : result pyval;
  raise_for_status : result unit;
}.

(** ** app/app.py *)

Module App.

Section Decoder.

(** [base64.urlsafe_b64decode] and [json.loads], of the Python
    standard library. *)
Variable urlsafe_b64decode : string → result (list Byte.byte).
Variable json_loads : list Byte.byte → result pyval.

(** The padding [decode_jwt] appends to the second segment. *)
Definition padding (payload : string) : string :=
  str_mul "="%char (4 - String.length payload `mod` 4)%nat.

(** [decode_jwt(token)]: the [except Exception] clause prints and
    re-raises, so every exception of the body goes to the caller. *)
Definition decode_jwt (token : pyval) : result pyval :=
  match py_split token "."%char with
  | Raise e => Raise e
  | Ok parts =>
      if bool_decide (length parts < 2)%nat
      then Raise (Exn ValueError "Invalid JWT token: less than two parts.")
      else match parts !! 1%nat with
           | None => Raise (Exn IndexError "list index out of range")
           | Some payload =>
               let payload := payload ++ padding payload in
               match urlsafe_b64decode payload with
               | Raise e => Raise e
               | Ok decoded => json_loads decoded
               end
           end
  end.

End Decoder.

(** What a view function returns: a body with a status, or the response
    of [redirect]. *)
Inductive view : Type :=
| Body (body : string) (status : Z)
| Redirect (location : string).

(** [url_for('index')]: the route of [index] is ['/']. *)
Definition url_for_index : string := "/".

Definition REDIRECT_URI : string := "http://localhost:5000/callback".

Section Callback.

Variable urlsafe_b64decode : string → result (list Byte.byte).
Variable json_loads : list Byte.byte → result pyval.

(** The environment variables read at start-up. *)
Variables CLIENT_ID CLIENT_SECRET AUTH_SERVER_INTERNAL : string.

(** [requests.post(url, data=..., timeout=...)] and
    [requests.get(url, headers=..., timeout=...)]: the identity
    provider answers, or the call raises. *)
Variable requests_post : string → list (string * string) → Z → result response.
Variable requests_get : string → list (string * string) → Z → result response.

(** The Flask session, a dict. *)
Abbreviation session := (gmap string pyval).

(** [session[key] = value] *)
Definition session_set (key : string) (value : pyval) : M session unit :=
  modify (<[key := value]>).

(** [try: ... except Exception as e: print(...)] *)
Definition swallow {A} (default : A) (body : M session A) : M session A :=
  try_except body
    (fun e => if isinstance e Exception then Some (ret default) else None).

(** [callback()]; [code] is [request.args.get('code')] and [args] the
    text of [request.args]. *)
Definition callback (code : option string) (args : string) : M session view :=
  if negb (from_option (fun c => truthy (PStr c)) false code) then
    ret (Body ("Error: Authorization code not received. Parameters: " ++ args) 400)
  else
  let token_url := AUTH_SERVER_INTERNAL ++ "/protocol/openid-connect/token" in
  let data := [("grant_type", "authorization_code");
               ("code", from_option id "" code);
               ("redirect_uri", REDIRECT_URI);
               ("client_id", CLIENT_ID);
               ("client_secret", CLIENT_SECRET)] in
  try_except
    (let! resp := lift (requests_post token_url data 30) in
     if negb (ok resp) then
       ret (Body ("Error at token endpoint: " ++ pretty (status_code resp)
                    ++ " - " ++ text resp) 500)
     else
     let! tokens := lift (json resp) in
     let! access_token := lift (py_get tokens "access_token") in
     let! id_token := lift (py_get tokens "id_token") in
     if negb (truthy access_token) then
       ret (Body "Access token not received from token endpoint" 500)
     else
     (* the two decodings made for the log *)
     do! (if truthy id_token
          then swallow tt (do! lift (decode_jwt urlsafe_b64decode json_loads id_token) in ret tt)
          else ret tt) in
     do! swallow tt (do! lift (decode_jwt urlsafe_b64decode json_loads access_token) in ret tt) in
     let! access_token := lift (py_strip access_token) in
     let userinfo_url := AUTH_SERVER_INTERNAL ++ "/protocol/openid-connect/userinfo" in
     let headers := [("Authorization", "Bearer " ++ access_token);
                     ("Accept", "application/json")] in
     let! userinfo_resp := lift (requests_get userinfo_url headers 30) in
     if negb (ok userinfo_resp) then
       let! returned :=
         (if truthy id_token then
            swallow None
              (let! userinfo := lift (decode_jwt urlsafe_b64decode json_loads id_token) in
               let! preferred := lift (py_get userinfo "preferred_username") in
               let! user := (if truthy preferred then ret preferred
                             else lift (py_get userinfo "sub")) in
               do! session_set "user" user in
               do! session_set "userinfo" userinfo in
               do! session_set "access_token" (PStr access_token) in
               do! session_set "id_token" id_token in
               ret (Some (Redirect url_for_index)))
          else ret None) in
       match returned with
       | Some v => ret v
       | None =>
           ret (Body ("Error at userinfo endpoint: " ++ pretty (status_code userinfo_resp)
                        ++ " - " ++ text userinfo_resp) 500)
       end
     else
     let! userinfo := lift (json userinfo_resp) in
     let! user := lift (py_get userinfo "preferred_username") in
     do! session_set "user" user in
     do! session_set "userinfo" userinfo in
     do! session_set "access_token" (PStr access_token) in
     do! session_set "id_token" id_token in
     ret (Redirect url_for_index))
    (fun e =>
       if isinstance e RequestException then
         Some (ret (Body ("Connection error: " ++ exn_msg e) 500))
       else if isinstance e JSONDecodeError then
         Some (ret (Body ("JSON decoding error: " ++ exn_msg e) 500))
       else None).

(** The request [callback] posts to the token endpoint for [code]. *)
Definition token_request (code : string) : result response :=
  requests_post (AUTH_SERVER_INTERNAL ++ "/protocol/openid-connect/token")
    [("grant_type", "authorization_code"); ("code", code);
     ("redirect_uri", REDIRECT_URI); ("client_id", CLIENT_ID);
     ("client_secret", CLIENT_SECRET)] 30.

(** The request [callback] sends to the userinfo endpoint. *)
Definition userinfo_request (access_token : string) : result response :=
  requests_get (AUTH_SERVER_INTERNAL ++ "/protocol/openid-connect/userinfo")
    [("Authorization", "Bearer " ++ access_token); ("Accept", "application/json")] 30.

(** The four session keys, written. *)
Definition logged_in (user userinfo : pyval) (access_token : string) (id_token : pyval)
    (s : session) : session :=
  <["id_token" := id_token]>
    (<["access_token" := PStr access_token]>
       (<["userinfo" := userinfo]> (<["user" := user]> s))).

(** The code was there and the token endpoint answered 2xx with an
    access token; [access_token] is that token, stripped, and [id_token]
    is [tokens.get('id_token')]. *)
Definition tokens_received (code access_token : string) (id_token : pyval) : Prop :=
  truthy (PStr code) = true
  ∧ ∃ resp tokens raw,
      token_request code = Ok resp ∧ ok resp = true ∧ json resp = Ok tokens
      ∧ py_get tokens "access_token" = Ok raw ∧ truthy raw = true
      ∧ py_get tokens "id_token" = Ok id_token
      ∧ py_strip raw = Ok access_token.

(** The first successful outcome: the userinfo endpoint answered. *)
Definition userinfo_outcome (code : string) (s s' : session) : Prop :=
  ∃ access_token id_token userinfo_resp userinfo user,
    tokens_received code access_token id_token
    ∧ userinfo_request access_token = Ok userinfo_resp
    ∧ ok userinfo_resp = true
    ∧ json userinfo_resp = Ok userinfo
    ∧ py_get userinfo "preferred_username" = Ok user
    ∧ s' = logged_in user userinfo access_token id_token s.

(** The second: it did not, and the ID token was decoded instead. *)
Definition fallback_outcome (code : string) (s s' : session) : Prop :=
  ∃ access_token id_token userinfo_resp userinfo preferred user,
    tokens_received code access_token id_token
    ∧ userinfo_request access_token = Ok userinfo_resp
    ∧ ok userinfo_resp = false
    ∧ truthy id_token = true
    ∧ decode_jwt urlsafe_b64decode json_loads id_token = Ok userinfo
    ∧ py_get userinfo "preferred_username" = Ok preferred
    ∧ (if truthy preferred then Ok preferred else py_get userinfo "sub") = Ok user
    ∧ s' = logged_in user userinfo access_token id_token s.

(** What [callback] leaves behind. *)
Definition callback_post (code : string) (s : session) (out : result view * session) : Prop :=
  match out with
  | (Ok (Redirect location), s') =>
      location = url_for_index
      ∧ (userinfo_outcome code s s' ∨ fallback_outcome code s s')
  | (_, s') => s' = s
  end.

End Callback.

End App.

(** ** resource_server/app.py *)

Module ResourceServer.

Definition KEYCLOAK_JWKS_URL : string :=
  "http://keycloak:8080/realms/myrealm/protocol/openid-connect/certs".
Definition KEYCLOAK_ISSUER : string := "http://localhost:8080/realms/myrealm".
Definition EXPECTED_AUDIENCE : string := "my-client".

(** The state of the server process: the module global [_cached_jwks],
    and the number of requests the process has sent upstream so far. The
    counter is not a variable of the program: it records the network
    calls, so that they can be counted. *)
Record process : Type := Process {
  _cached_jwks : pyval;
  upstream_fetches : nat;
}.

(** A process that has just started: [_cached_jwks = None]. *)
Definition started : process := Process PNone 0.

Section Server.

(** The identity provider: what [requests.get(url, timeout=...)] gives
    when [n] requests have been sent before it. *)
Variable provider : nat → string → Z → result response.

(** [jose.jwt.decode(token, key, audience=, issuer=, algorithms=, options=)] *)
Variable jwt_decode :
  string → pyval → string → string → list string → list (string * bool) → result pyval.

(** [requests.get(url, timeout=timeout)]: one request upstream. *)
Definition requests_get (url : string) (timeout : Z) : M process response :=
  fun p => (provider (upstream_fetches p) url timeout,
            Process (_cached_jwks p) (S (upstream_fetches p))).

(** [_cached_jwks = value] *)
Definition set_cached_jwks (value : pyval) : M process unit :=
  modify (fun p => Process value (upstream_fetches p)).

(** [get_keycloak_jwks()] *)
Definition get_keycloak_jwks : M process pyval :=
  let! p := get_state in
  do! (if is_None (_cached_jwks p) then
         try_except
           (let! response := requests_get KEYCLOAK_JWKS_URL 10 in
            do! lift (raise_for_status response) in
            let! body := lift (json response) in
            set_cached_jwks body)
           (fun e =>
              if isinstance e RequestException then
                Some (raise (Exn ConnectionError
                               ("Could not fetch JWKS from Keycloak: " ++ exn_msg e)))
              else None)
       else ret tt) in
  let! p := get_state in
  ret (_cached_jwks p).

(** [validate_token(token)]: the key set is asked for before the [try]. *)
Definition validate_token (token : string) : M process pyval :=
  let! jwks := get_keycloak_jwks in
  try_except
    (lift (jwt_decode token jwks EXPECTED_AUDIENCE KEYCLOAK_ISSUER
             ["RS256"] [("verify_at_hash", false)]))
    (fun e =>
       if isinstance e JWTClaimsError then
         Some (raise (Exn ValueError ("Token claims invalid: " ++ exn_msg e)))
       else if isinstance e JWTError then
         Some (raise (Exn ValueError ("Token verification failed: " ++ exn_msg e)))
       else if isinstance e JWKError then
         Some (raise (Exn ValueError ("JWK error during token verification: " ++ exn_msg e)))
       else if isinstance e Exception then
         Some (raise (Exn ValueError
                        ("Token validation failed due to unexpected error: " ++ exn_msg e)))
       else None).

(** [jsonify({"message": text})] *)
Definition message (text : string) : pyval := PDict [("message", PStr text)].

(** The dict [protected_data] of a successful call. *)
Definition protected_data (access_token : string) (decoded_payload user_id preferred_username : pyval)
  : pyval :=
  PDict [("message", PStr "This is highly confidential data from the protected resource!");
         ("received_token_length", PInt (Z.of_nat (String.length access_token)));
         ("accessed_by_user_id", user_id);
         ("preferred_username", preferred_username);
         ("token_claims", decoded_payload)].

(** [protected_resource()]; [auth_header] is
    [request.headers.get('Authorization')]. The result is the JSON body
    with the status. *)
Definition protected_resource (auth_header : option string) : M process (pyval * Z) :=
  match auth_header with
  | None => ret (message "Authorization header missing", 401%Z)
  | Some auth_header =>
      if negb (truthy (PStr auth_header)) then
        ret (message "Authorization header missing", 401%Z)
      else if negb (startswith "Bearer " auth_header) then
        ret (message "Invalid Authorization header format. Expected 'Bearer <token>'", 401%Z)
      else
      let! access_token :=
        lift (match split_on " "%char auth_header !! 1%nat with
              | Some t => Ok t
              | None => Raise (Exn IndexError "list index out of range")
              end) in
      try_except
        (let! decoded_payload := validate_token access_token in
         let! user_id := lift (py_get_default decoded_payload "sub" (PStr "unknown")) in
         let! preferred_username :=
           lift (py_get_default decoded_payload "preferred_username" (PStr "unknown")) in
         ret (protected_data access_token decoded_payload user_id preferred_username, 200%Z))
        (fun e =>
           if isinstance e ValueError then
             Some (ret (message ("Unauthorized: " ++ exn_msg e), 401%Z))
           else if isinstance e ConnectionError then
             Some (ret (message ("Server error: Could not connect to Keycloak for token validation: "
                                   ++ exn_msg e), 500%Z))
           else if isinstance e Exception then
             Some (ret (message "An internal server error occurred.", 500%Z))
           else None)
  end.

(** *** The fetch *)

(** What the three calls of the [try] block give at the request number
    [n]: the parsed body, or the exception one of them raised. *)
Definition fetched (n : nat) : result pyval :=
  match provider n KEYCLOAK_JWKS_URL 10 with
  | Raise e => Raise e
  | Ok response =>
      match raise_for_status response with
      | Raise e => Raise e
      | Ok _ => json response
      end
  end.

(** What the [except] clause makes of an exception. *)
Definition reraised (e : exn) : exn :=
  if isinstance e RequestException
  then Exn ConnectionError ("Could not fetch JWKS from Keycloak: " ++ exn_msg e)
  else e.

(** *** A run of calls *)

(** [n] calls of [get_keycloak_jwks], one after the other: what each of
    them gave, and the process after the last. *)
Fixpoint calls (n : nat) (p : process) : list (result pyval) * process :=
  match n with
  | O => ([], p)
  | S n' =>
      let (r, p') := get_keycloak_jwks p in
      let (rs, p'') := calls n' p' in
      (r :: rs, p'')
  end.

(** The call returned a key set: a value, and not [None]. *)
Definition is_key_set (r : result pyval) : bool :=
  match r with
  | Ok v => negb (is_None v)
  | Raise _ => false
  end.

(** The calls of a run that returned no key set. *)
Definition misses (rs : list (result pyval)) : nat :=
  length (List.filter (fun r => negb (is_key_set r)) rs).

(** *** Callers that run at the same time

    A caller of [get_keycloak_jwks] is at one of its statements, and
    another caller may run between any two of them: before the test
    [_cached_jwks is None], before the request (with the two calls on
    the response), before the assignment to [_cached_jwks], before the
    [return]. *)
Inductive caller : Type :=
| AtTest
| AtRequest
| AtStore (body : pyval)
| AtReturn
| Returned (value : pyval)
| Raised (e : exn).

(** One statement of one caller. *)
Definition step_caller (c : caller) (p : process) : caller * process :=
  match c with
  | AtTest => if is_None (_cached_jwks p) then (AtRequest, p) else (AtReturn, p)
  | AtRequest =>
      match try_except
              (let! response := requests_get KEYCLOAK_JWKS_URL 10 in
               do! lift (raise_for_status response) in
               lift (json response))
              (fun e =>
                 if isinstance e RequestException then
                   Some (raise (Exn ConnectionError
                                  ("Could not fetch JWKS from Keycloak: " ++ exn_msg e)))
                 else None) p with
      | (Ok body, p') => (AtStore body, p')
      | (Raise e, p') => (Raised e, p')
      end
  | AtStore body => (AtReturn, Process body (upstream_fetches p))
  | AtReturn => (Returned (_cached_jwks p), p)
  | Returned _ | Raised _ => (c, p)
  end.

(** The scheduler lets caller [i] run one statement. *)
Definition step (i : nat) (st : process * list caller) : process * list caller :=
  match st.2 !! i with
  | None => st
  | Some c => let (c', p') := step_caller c st.1 in (p', <[i := c']> st.2)
  end.

(** A schedule names the caller that runs next, again and again. *)
Definition run (schedule : list nat) (st : process * list caller) : process * list caller :=
  fold_left (fun st i => step i st) schedule st.

(** The schedule on which [n] callers do not overlap: each runs its four
    statements before the next one starts. *)
Definition serial (n : nat) : list nat :=
  flat_map (fun i => [i; i; i; i]) (seq 0 n).

(** A caller that has still to test the cache or to send its request. *)
Definition pending (c : caller) : nat :=
  match c with
  | AtTest | AtRequest => 1
  | _ => 0
  end.

Fixpoint total_pending (pool : list caller) : nat :=
  match pool with
  | [] => 0
  | c :: pool => pending c + total_pending pool
  end.

(** The caller a finished call leaves behind. *)
Definition outcome (r : result pyval) : caller :=
  match r with
  | Ok v => Returned v
  | Raise e => Raised e
  end.

(** The token of a well-formed [Authorization] header: what
    [protected_resource] hands to [validate_token]. *)
Definition bearer_token (auth_header : option string) : option string :=
  match auth_header with
  | None => None
  | Some h =>
      if truthy (PStr h) && startswith "Bearer " h
      then split_on " "%char h !! 1%nat
      else None
  end.

End Server.

(** *** What the verifier asks of python-jose

    [header_alg token] is the [alg] of the token's header, as
    [jose.jws.get_unverified_header] reads it. [jwt.decode] checks the
    signature unless the option [verify_signature] is false, and starts
    by refusing, with a [JWTError], a token whose [alg] is not among
    [algorithms]. *)
Definition enforces_algorithms (header_alg : string → option string)
    (jwt_decode : string → pyval → string → string → list string
                  → list (string * bool) → result pyval) : Prop :=
  ∀ token key audience issuer algorithms options alg,
    header_alg token = Some alg →
    alg ∉ algorithms →
    assoc "verify_signature" options ≠ Some false →
    ∃ msg, jwt_decode token key audience issuer algorithms options
           = Raise (Exn JWTError msg).

End ResourceServer.

(** ** app/app.py: the other routes *)

Module Routes.

(** What a view function returns: a body with a status or a redirect
    (as [callback] does), or the page [render_template] makes of a
    template and its context. *)
Inductive reply : Type :=
| Plain (v : App.view)
| Rendered (template : string) (context : list (string * pyval)).

(** [url_for('login')]: the route of [login] is ['/login']. *)
Definition url_for_login : string := "/login".

Definition POST_LOGOUT_REDIRECT_URI : string := "http://localhost:5000/".
Definition RESOURCE_SERVER_INTERNAL_URL : string := "http://resource_server:5001".

Section Routes.

Variable urlsafe_b64decode : string → result (list Byte.byte).
Variable json_loads : list Byte.byte → result pyval.
Variables CLIENT_ID AUTH_SERVER_PUBLIC : string.

(** [requests.get(url, headers=..., timeout=...)]: the resource server
    answers, or the call raises. *)
Variable requests_get : string → list (string * string) → Z → result response.

(** [str(obj)] for an object that is not a str, as an f-string
    formats it. *)
Variable py_repr : pyval → string.

(** [e.response] when the exception has the attribute and it is not
    [None]. *)
Variable exn_response : exn → option response.

Abbreviation session := (gmap string pyval).

(** [f"{obj}"] *)
Definition py_format (obj : pyval) : string :=
  match obj with
  | PStr s => s
  | _ => py_repr obj
  end.

(** [session.get(key)] *)
Definition session_get (key : string) : M session pyval :=
  fun s => (Ok (from_option id PNone (s !! key)), s).

(** [session.clear()] *)
Definition session_clear : M session unit := modify (fun _ => ∅).

(** [login_required(f)]: the wrapper of the decorator, around the view
    [f]. *)
Definition login_required (f : M session reply) : M session reply :=
  let! user := session_get "user" in
  if negb (truthy user) then ret (Plain (App.Redirect url_for_login))
  else f.

(** [show_token()] *)
Definition show_token : M session reply :=
  login_required
    (let! access_token := session_get "access_token" in
     if negb (truthy access_token) then
       ret (Plain (App.Body "Access token not available in session." 404))
     else
       try_except
         (let! decoded := lift (App.decode_jwt urlsafe_b64decode json_loads access_token) in
          ret (Rendered "token.html" [("token", decoded)]))
         (fun e =>
            if isinstance e Exception then
              Some (ret (Plain (App.Body ("Error decoding token: " ++ exn_msg e) 500)))
            else None)).

(** [index()] *)
Definition index : M session reply :=
  let! user := session_get "user" in
  ret (Rendered "index.html" [("user", user)]).

(** [login()] *)
Definition login : M session reply :=
  ret (Plain (App.Redirect
                (AUTH_SERVER_PUBLIC ++ "/protocol/openid-connect/auth"
                 ++ "?client_id=" ++ CLIENT_ID
                 ++ "&response_type=code"
                 ++ "&scope=openid profile"
                 ++ "&redirect_uri=" ++ App.REDIRECT_URI))).

(** [logout()] *)
Definition logout : M session reply :=
  let! id_token := session_get "id_token" in
  do! session_clear in
  let logout_url :=
    AUTH_SERVER_PUBLIC ++ "/protocol/openid-connect/logout"
    ++ "?post_logout_redirect_uri=" ++ POST_LOGOUT_REDIRECT_URI in
  let logout_url :=
    if truthy id_token then logout_url ++ "&id_token_hint=" ++ py_format id_token
    else logout_url in
  ret (Plain (App.Redirect logout_url)).

(** [profile()] *)
Definition profile : M session reply :=
  login_required
    (let! user := session_get "user" in
     let! info := session_get "userinfo" in
     ret (Rendered "profile.html" [("user", user); ("info", info)])).

(** [call_protected_api()] *)
Definition call_protected_api : M session reply :=
  login_required
    (let! access_token := session_get "access_token" in
     if negb (truthy access_token) then
       ret (Plain (App.Body "Access token not found in session. Please log in." 401))
     else
       let headers := [("Authorization", "Bearer " ++ py_format access_token)] in
       try_except
         (let! response :=
            lift (requests_get (RESOURCE_SERVER_INTERNAL_URL ++ "/protected-resource")
                    headers 10) in
          do! lift (raise_for_status response) in
          let! api_response_data := lift (json response) in
          ret (Rendered "api_response.html" [("api_response", api_response_data)]))
         (fun e =>
            if isinstance e RequestException then
              let error_message := "Error calling protected API: " ++ exn_msg e in
              let error_message :=
                match exn_response e with
                | Some r =>
                    error_message ++ " - Status: " ++ pretty (status_code r)
                    ++ ", Response: " ++ text r
                | None => error_message
                end in
              Some (ret (Plain (App.Body ("Failed to call protected API: " ++ error_message)
                                  500)))
            else if isinstance e JSONDecodeError then
              Some (ret (Plain (App.Body ("Error decoding API response: " ++ exn_msg e) 500)))
            else None)).

(** The request [call_protected_api] sends for the token [t]. *)
Definition api_request (t : string) : result response :=
  requests_get (RESOURCE_SERVER_INTERNAL_URL ++ "/protected-resource")
    [("Authorization", "Bearer " ++ t)] 10.

End Routes.

End Routes.

(** ** Notions the properties use *)

(** The character [c] occurs in [s]. *)
Fixpoint str_contains (c : ascii) (s : string) : bool :=
  match s with
  | EmptyString => false
  | String a rest => bool_decide (a = c) || str_contains c rest
  end.


(** The identity provider served the key set [v] at one of the requests
    the process [p] has sent. *)
Definition served (provider : nat → string → Z → result response)
    (p : ResourceServer.process) (v : pyval) : Prop :=
  ∃ k, (k < ResourceServer.upstream_fetches p)%nat
       ∧ ResourceServer.fetched provider k = Ok v.

(** Every key set a caller holds, stores next or has returned was
    served, and so was the cached one, unless the cache is still empty
    and no caller is about to return. *)
Definition sound (provider : nat → string → Z → result response)
    (st : ResourceServer.process * list ResourceServer.caller) : Prop :=
  (∀ j b, st.2 !! j = Some (ResourceServer.AtStore b) → served provider st.1 b)
  ∧ (∀ j v, st.2 !! j = Some (ResourceServer.Returned v) → served provider st.1 v)
  ∧ (served provider st.1 (ResourceServer._cached_jwks st.1)
     ∨ (is_None (ResourceServer._cached_jwks st.1) = true
        ∧ ∀ j, st.2 !! j ≠ Some ResourceServer.AtReturn)).

(** ** Test doubles

    Stand-ins for the standard-library decoders and for the identity
    provider, used to run the programs on concrete inputs. *)

Module Doubles.

(** A decoder that hands its input on unchanged, so that the result
    shows what [decode_jwt] passed to [base64.urlsafe_b64decode]. *)
Definition echo_b64decode (s : string) : result (list Byte.byte) :=
  Ok (list_byte_of_string s).

Definition echo_json_loads (b : list Byte.byte) : result pyval :=
  Ok (PStr (string_of_list_byte b)).

(** A [json.loads] that finds the claims of alice whatever it is given. *)
Definition alice : list (string * pyval) :=
  [("preferred_username", PStr "alice"); ("sub", PStr "u1")].

Definition alice_json_loads (b : list Byte.byte) : result pyval := Ok (PDict alice).

(** A 2xx response with a JSON body. *)
Definition ok_response (body : pyval) : response :=
  Response true 200 "" (Ok body) (Ok tt).

(** A 4xx or 5xx response: [raise_for_status] raises, the body is no JSON. *)
Definition error_response (status : Z) (body : string) : response :=
  Response false status body
    (Raise (Exn JSONDecodeError "Expecting value: line 1 column 1 (char 0)"))
    (Raise (Exn HTTPError (pretty status ++ " Server Error"))).

(** A python-jose for tokens written [alg.claims.signature] in the
    clear: it refuses an [alg] outside [algorithms] and a missing key,
    and finds the claims of alice otherwise. *)
Definition header_alg (token : string) : option string :=
  head (split_on "."%char token).

Definition jwt_decode (token : string) (key : pyval) (audience issuer : string)
    (algorithms : list string) (options : list (string * bool)) : result pyval :=
  match header_alg token with
  | None => Raise (Exn JWTError "Error decoding token headers.")
  | Some alg =>
      if bool_decide (alg ∈ algorithms) then
        if is_None key then Raise (Exn JWKError "Unable to parse an RSA_JWK from key: None")
        else Ok (PDict alice)
      else Raise (Exn JWTError "The specified alg value is not allowed")
  end.

(** A key set, and identity providers that serve it, that cannot be
    reached, that can be reached from the second request on, and that
    serve a new key set at every request. *)
Definition jwks : pyval :=
  PDict [("keys", PList [PDict [("kid", PStr "k1"); ("alg", PStr "RS256")]])].

Definition up : nat → string → Z → result response :=
  fun _ _ _ => Ok (ok_response jwks).

Definition down : nat → string → Z → result response :=
  fun _ _ _ => Raise (Exn RequestException "Connection refused").

Definition down_then_up : nat → string → Z → result response :=
  fun n url timeout => match n with O => down n url timeout | _ => up n url timeout end.

Definition keys (n : nat) : pyval := PDict [("keys", PList [PInt (Z.of_nat n)])].

Definition rotating : nat → string → Z → result response :=
  fun n _ _ => Ok (ok_response (keys n)).

(** An f-string that shows no object but a str, and exceptions that
    carry the response [r] when they are an [HTTPError]. *)
Definition no_repr : pyval → string := fun _ => "<object>".

Definition response_of (r : response) : exn → option response :=
  fun e => if isinstance e HTTPError then Some r else None.

(** A resource server that answers every request with [r]. *)
Definition resource_server (r : response)
  : string → list (string * string) → Z → result response :=
  fun _ _ _ => Ok r.

End Doubles.

(** ** The specification's decoder, for comparison *)

Module Spec.

(** The padding as the specification computes it: [(4 - len % 4) % 4]
    characters. *)
Definition padding (payload : string) : string :=
  str_mul "="%char ((4 - String.length payload `mod` 4) `mod` 4)%nat.

End Spec.

(** An identity provider for the examples: the token endpoint answers
    2xx with the body [tokens], the userinfo endpoint with [userinfo]. *)
Module Provider.

Definition token_endpoint (tokens : pyval)
  : string → list (string * string) → Z → result response :=
  fun _ _ _ => Ok (Doubles.ok_response tokens).

Definition userinfo_endpoint (userinfo : result response)
  : string → list (string * string) → Z → result response :=
  fun _ _ _ => userinfo.

Definition both_tokens : pyval :=
  PDict [("access_token", PStr "h.c.s"); ("id_token", PStr "h2.c2.s2")].

Definition access_token_only : pyval := PDict [("access_token", PStr "h.c.s")].


(** [callback] of a relying party configured for the demo realm. *)
Definition callback post get :=
  App.callback Doubles.echo_b64decode Doubles.alice_json_loads
    "my-client" "secret" "http://keycloak:8080/realms/myrealm" post get.

End Provider.

(** * Properties *)

(** ** Exceptions *)

Lemma isinstance_Exception (e : exn) : isinstance e Exception = true.
Proof. by destruct e as [[] ?]. Qed.

Lemma isinstance_refl (c : exn_class) (msg : string) : isinstance (Exn c msg) c = true.
Proof. by destruct c. Qed.

(** ** Strings *)

Lemma split_on_nonempty (sep : ascii) (s : string) : split_on sep s ≠ [].
Proof.
  induction s as [|c s IH]; simpl; [done|].
  case_bool_decide; [done|]. by destruct (split_on sep s).
Qed.

Lemma str_mul_length (c : ascii) (n : nat) : String.length (str_mul c n) = n.
Proof. induction n as [|n IH]; simpl; congruence. Qed.

Lemma string_app_length (s t : string) :
  String.length (s ++ t) = (String.length s + String.length t)%nat.
Proof.
  induction s as [|c s IH]; [done|].
  change (String c s ++ t) with (String c (s ++ t)). simpl. congruence.
Qed.

(** ** The JWT decoder *)

Section DecoderFacts.

Variable urlsafe_b64decode : string → result (list Byte.byte).
Variable json_loads : list Byte.byte → result pyval.

Abbreviation decode_jwt := (App.decode_jwt urlsafe_b64decode json_loads).

(** C6. A token string whose split on ['.'] has fewer than two segments
    makes [decode_jwt] raise the [ValueError] "Invalid JWT token: less
    than two parts." (the specification's MalformedToken); it never
    returns claims. *)
Theorem decode_jwt_fewer_than_two_segments (token : string) :
  (length (split_on "."%char token) < 2)%nat →
  decode_jwt (PStr token)
  = Raise (Exn ValueError "Invalid JWT token: less than two parts.")
  ∧ ∀ claims, decode_jwt (PStr token) ≠ Ok claims.
Proof.
  intros Hlen. unfold App.decode_jwt; simpl.
  rewrite bool_decide_eq_true_2 by done. by split.
Qed.

(** The padding [decode_jwt] appends has between one and four
    characters and fills the segment up to a multiple of four. *)
Lemma padding_length (payload : string) :
  let n := String.length (App.padding payload) in
  (1 ≤ n ≤ 4)%nat ∧ ((String.length payload + n) `mod` 4 = 0)%nat.
Proof.
  unfold App.padding. rewrite str_mul_length. cbv zeta.
  set (len := String.length payload).
  pose proof (Nat.mod_upper_bound len 4 ltac:(lia)) as Hlt.
  split; [lia|].
  pose proof (Nat.div_mod_eq len 4) as Hdm.
  replace (len + (4 - len `mod` 4))%nat with ((1 + len `div` 4) * 4)%nat by lia.
  apply Nat.Div0.mod_mul.
Qed.

(** C3, as the code has it. For a token with at least two segments,
    [decode_jwt] takes the second segment, appends [4 - len % 4]
    characters ['='] (one to four of them, four when the length is a
    multiple of 4 already, and [(4 - len % 4) % 4] of them otherwise),
    which makes the length a multiple of 4, decodes the padded segment
    with [urlsafe_b64decode] and parses the bytes with [json_loads]. *)
Theorem decode_jwt_second_segment_padded (token payload : string) :
  (2 ≤ length (split_on "."%char token))%nat →
  split_on "."%char token !! 1%nat = Some payload →
  let len := String.length payload in
  let padded := payload ++ str_mul "="%char (4 - len `mod` 4)%nat in
  decode_jwt (PStr token)
  = match urlsafe_b64decode padded with
    | Ok decoded => json_loads decoded
    | Raise e => Raise e
    end
  ∧ (String.length padded `mod` 4 = 0)%nat
  ∧ (len `mod` 4 ≠ 0 → padded = payload ++ Spec.padding payload)%nat
  ∧ (len `mod` 4 = 0 → padded = payload ++ "====")%nat.
Proof.
  intros Hlen Hseg len padded. split_and!.
  - unfold App.decode_jwt; simpl.
    rewrite bool_decide_eq_false_2 by lia. by rewrite Hseg.
  - subst padded. rewrite string_app_length.
    apply (padding_length payload).
  - intros Hne. subst padded. unfold Spec.padding. f_equal. f_equal.
    pose proof (Nat.mod_upper_bound len 4 ltac:(done)).
    symmetry. apply Nat.mod_small. lia.
  - intros Heq. subst padded. by rewrite Heq.
Qed.

End DecoderFacts.

(** C6 at the token ["abc"]. *)
Lemma decode_jwt_fewer_than_two_segments_witness :
  App.decode_jwt Doubles.echo_b64decode Doubles.echo_json_loads (PStr "abc")
  = Raise (Exn ValueError "Invalid JWT token: less than two parts.")
  ∧ ∀ claims,
      App.decode_jwt Doubles.echo_b64decode Doubles.echo_json_loads (PStr "abc") ≠ Ok claims.
Proof.
  apply (decode_jwt_fewer_than_two_segments
           Doubles.echo_b64decode Doubles.echo_json_loads "abc").
  vm_compute. lia.
Defined.

(** C3 at the token ["h.abcde.s"]: three characters of padding. *)
Lemma decode_jwt_second_segment_padded_witness :
  App.decode_jwt Doubles.echo_b64decode Doubles.echo_json_loads (PStr "h.abcde.s")
  = Ok (PStr "abcde===").
Proof.
  apply (decode_jwt_second_segment_padded
           Doubles.echo_b64decode Doubles.echo_json_loads "h.abcde.s" "abcde").
  - vm_compute. lia.
  - reflexivity.
Defined.

(** C3 as stated fails at the token ["h.abcd.s"]: the second segment
    has four characters, the specification's padding is empty, and
    [decode_jwt] hands ["abcd===="] to the base64 decoder. *)
Lemma decode_jwt_pads_aligned_segment :
  split_on "."%char "h.abcd.s" = ["h"; "abcd"; "s"]
  ∧ Spec.padding "abcd" = ""
  ∧ App.padding "abcd" = "===="
  ∧ App.decode_jwt Doubles.echo_b64decode Doubles.echo_json_loads (PStr "h.abcd.s")
    = Ok (PStr "abcd====").
Proof. by vm_compute. Qed.

(** ** The monad *)

Section MonadFacts.

Context {S A B : Type}.

Lemma bind_lift (r : result A) (k : A → M S B) (s : S) :
  bind (lift r) k s = match r with Ok a => k a s | Raise e => (Raise e, s) end.
Proof. by destruct r. Qed.

Lemma bind_ret (a : A) (k : A → M S B) (s : S) : bind (ret a) k s = k a s.
Proof. done. Qed.

Lemma bind_modify (f : S → S) (k : unit → M S B) (s : S) :
  bind (modify f) k s = k tt (f s).
Proof. done. Qed.

End MonadFacts.

(** ** The callback *)

Section CallbackFacts.

Variable urlsafe_b64decode : string → result (list Byte.byte).
Variable json_loads : list Byte.byte → result pyval.
Variables CLIENT_ID CLIENT_SECRET AUTH_SERVER_INTERNAL : string.
Variable requests_post : string → list (string * string) → Z → result response.
Variable requests_get : string → list (string * string) → Z → result response.

Abbreviation session := (gmap string pyval).
Abbreviation decode := (App.decode_jwt urlsafe_b64decode json_loads).
Abbreviation callback :=
  (App.callback urlsafe_b64decode json_loads CLIENT_ID CLIENT_SECRET AUTH_SERVER_INTERNAL
     requests_post requests_get).
Abbreviation token_request :=
  (App.token_request CLIENT_ID CLIENT_SECRET AUTH_SERVER_INTERNAL requests_post).
Abbreviation userinfo_request := (App.userinfo_request AUTH_SERVER_INTERNAL requests_get).
Abbreviation logged_in := App.logged_in.
Abbreviation tokens_received :=
  (App.tokens_received CLIENT_ID CLIENT_SECRET AUTH_SERVER_INTERNAL requests_post).
Abbreviation userinfo_outcome :=
  (App.userinfo_outcome CLIENT_ID CLIENT_SECRET AUTH_SERVER_INTERNAL
     requests_post requests_get).
Abbreviation fallback_outcome :=
  (App.fallback_outcome urlsafe_b64decode json_loads CLIENT_ID CLIENT_SECRET
     AUTH_SERVER_INTERNAL requests_post requests_get).
Abbreviation callback_post :=
  (App.callback_post urlsafe_b64decode json_loads CLIENT_ID CLIENT_SECRET
     AUTH_SERVER_INTERNAL requests_post requests_get).

Lemma bind_swallow_decode {B} (token : pyval) (k : unit → M session B) (s : session) :
  bind (App.swallow tt (do! lift (decode token) in ret tt)) k s = k tt s.
Proof.
  unfold App.swallow, try_except, bind at 1. rewrite bind_lift.
  destruct (decode token) as [claims|e]; [done|].
  by rewrite isinstance_Exception.
Qed.

Lemma bind_log_id_token {B} (id_token : pyval) (k : unit → M session B) (s : session) :
  bind (if truthy id_token
        then App.swallow tt (do! lift (decode id_token) in ret tt)
        else ret tt) k s
  = k tt s.
Proof. destruct (truthy id_token); [apply bind_swallow_decode|done]. Qed.

Lemma bind_or_sub {B} (userinfo preferred : pyval) (k : pyval → M session B) (s : session) :
  bind (if truthy preferred then ret preferred else lift (py_get userinfo "sub")) k s
  = bind (lift (if truthy preferred then Ok preferred else py_get userinfo "sub")) k s.
Proof. by destruct (truthy preferred). Qed.

(** Runs the [try] block of [callback] up to the userinfo request. *)
Ltac callback_prefix c Hrecv :=
  let Hc := fresh in let Hpost := fresh in let Hok := fresh in
  let Hjson := fresh in let Hraw := fresh in let Htruthy := fresh in
  let Hid := fresh in let Hstrip := fresh in
  destruct Hrecv as (Hc & ? & ? & ? & Hpost & Hok & Hjson & Hraw & Htruthy & Hid & Hstrip);
  unfold App.callback;
  change (from_option _ false (Some c)) with (truthy (PStr c));
  change (from_option id "" (Some c)) with c;
  fold (token_request c);
  rewrite Hc; cbn [negb]; unfold try_except at 1;
  rewrite bind_lift, Hpost; cbv beta iota; rewrite Hok; cbn [negb];
  rewrite bind_lift, Hjson; cbv beta iota;
  rewrite bind_lift, Hraw; cbv beta iota;
  rewrite bind_lift, Hid; cbv beta iota; rewrite Htruthy; cbn [negb];
  rewrite bind_log_id_token, bind_swallow_decode, bind_lift, Hstrip; cbv beta iota;
  rewrite bind_lift;
  match goal with
  | |- context [requests_get ?u [(?a, _ ++ ?t); ?h] 30] =>
      change (requests_get u [(a, "Bearer " ++ t); h] 30) with (userinfo_request t)
  end.

(** The userinfo endpoint answers 2xx: what [callback] stores. *)
Lemma callback_userinfo_success (c args : string) (s : session)
    (access_token : string) (id_token : pyval) (userinfo_resp : response)
    (userinfo user : pyval) :
  tokens_received c access_token id_token →
  userinfo_request access_token = Ok userinfo_resp →
  ok userinfo_resp = true →
  json userinfo_resp = Ok userinfo →
  py_get userinfo "preferred_username" = Ok user →
  callback (Some c) args s
  = (Ok (App.Redirect App.url_for_index), logged_in user userinfo access_token id_token s).
Proof.
  intros Hrecv Hget Hok' Hjson' Huser. callback_prefix c Hrecv.
  rewrite Hget; cbv beta iota. rewrite Hok'; cbn [negb].
  rewrite bind_lift, Hjson'; cbv beta iota. rewrite bind_lift, Huser; cbv beta iota.
  unfold App.session_set. by rewrite !bind_modify.
Qed.

(** The userinfo endpoint answers with an error status and the ID
    token decodes: what [callback] stores. *)
Lemma callback_fallback_success (c args : string) (s : session)
    (access_token : string) (id_token : pyval) (userinfo_resp : response)
    (userinfo preferred user : pyval) :
  tokens_received c access_token id_token →
  userinfo_request access_token = Ok userinfo_resp →
  ok userinfo_resp = false →
  truthy id_token = true →
  decode id_token = Ok userinfo →
  py_get userinfo "preferred_username" = Ok preferred →
  (if truthy preferred then Ok preferred else py_get userinfo "sub") = Ok user →
  callback (Some c) args s
  = (Ok (App.Redirect App.url_for_index), logged_in user userinfo access_token id_token s).
Proof.
  intros Hrecv Hget Hok' Hidt Hdec Hpref Huser. callback_prefix c Hrecv.
  rewrite Hget; cbv beta iota. rewrite Hok', Hidt; cbn [negb].
  unfold App.swallow, try_except, bind at 1.
  rewrite bind_lift, Hdec; cbv beta iota. rewrite bind_lift, Hpref; cbv beta iota.
  rewrite bind_or_sub, bind_lift, Huser; cbv beta iota.
  unfold App.session_set. by rewrite !bind_modify.
Qed.

(** The userinfo request raises: [callback] answers 500 when the
    exception is a [RequestException], and the session is as it was. *)
Lemma callback_userinfo_network_error (c args : string) (s : session)
    (access_token : string) (id_token : pyval) (e : exn) :
  tokens_received c access_token id_token →
  userinfo_request access_token = Raise e →
  isinstance e RequestException = true →
  callback (Some c) args s = (Ok (App.Body ("Connection error: " ++ exn_msg e) 500), s).
Proof.
  intros Hrecv Hget Hreq. callback_prefix c Hrecv.
  rewrite Hget; cbv beta iota. by rewrite Hreq.
Qed.

(** C9. [callback] writes the session all at once or not at all. When
    it answers with the redirect to [index], one of the two successful
    outcomes took place (the userinfo endpoint answered, or it answered
    with an error status and the ID token was decoded instead) and the
    session is the old one with [user], [userinfo], [access_token] and
    [id_token] written. In every other case (any other response, among
    them those for a missing code, an error status or a missing access
    token at the token endpoint, a userinfo failure with no decodable ID
    token, a network error and a JSON decode error, and any exception
    that leaves the handler) the session is the one [callback] found. *)
Theorem callback_session_atomic (code : option string) (args : string) (s : session) :
  match callback code args s with
  | (Ok (App.Redirect location), s') =>
      location = App.url_for_index
      ∧ ∃ c, code = Some c ∧ (userinfo_outcome c s s' ∨ fallback_outcome c s s')
  | (_, s') => s' = s
  end.
Proof.
  unfold App.callback.
  destruct code as [c|]; [|done].
  change (from_option _ false (Some c)) with (truthy (PStr c)).
  change (from_option id "" (Some c)) with c.
  destruct (truthy (PStr c)) eqn:Hc; [|done]. cbn [negb].
  fold (token_request c).
  match goal with
  | |- context [try_except ?b ?h s] => set (body := b); set (handlers := h)
  end.
  assert (callback_post c s (body s)) as Hbody.
  { subst body. rewrite bind_lift.
    destruct (token_request c) as [resp|e] eqn:Hpost; [|done].
    destruct (ok resp) eqn:Hok; [|done]. cbn [negb].
    rewrite bind_lift. destruct (json resp) as [tokens|e] eqn:Hjson; [|done].
    rewrite bind_lift.
    destruct (py_get tokens "access_token") as [raw|e] eqn:Hraw; [|done].
    rewrite bind_lift.
    destruct (py_get tokens "id_token") as [id_token|e] eqn:Hid; [|done].
    destruct (truthy raw) eqn:Htruthy; [|done]. cbn [negb].
    rewrite bind_log_id_token, bind_swallow_decode, bind_lift.
    destruct (py_strip raw) as [access_token|e] eqn:Hstrip; [|done].
    rewrite bind_lift. fold (userinfo_request access_token).
    destruct (userinfo_request access_token) as [userinfo_resp|e] eqn:Hget; [|done].
    assert (tokens_received c access_token id_token) as Hrecv.
    { split; [done|]. by exists resp, tokens, raw. }
    destruct (ok userinfo_resp) eqn:Hok'; cbn [negb].
    - rewrite bind_lift.
      destruct (json userinfo_resp) as [userinfo|e] eqn:Hjson'; [|done].
      rewrite bind_lift.
      destruct (py_get userinfo "preferred_username") as [user|e] eqn:Huser; [|done].
      unfold App.session_set. rewrite !bind_modify. split; [done|]. left.
      by exists access_token, id_token, userinfo_resp, userinfo, user.
    - destruct (truthy id_token) eqn:Hidt; [|done].
      unfold App.swallow, try_except, bind at 1. rewrite bind_lift.
      destruct (decode id_token) as [userinfo|e] eqn:Hdec;
        [|by rewrite isinstance_Exception].
      rewrite bind_lift.
      destruct (py_get userinfo "preferred_username") as [preferred|e] eqn:Hpref;
        [|by rewrite isinstance_Exception].
      rewrite bind_or_sub, bind_lift.
      destruct (if truthy preferred then Ok preferred else py_get userinfo "sub")
        as [user|e] eqn:Huser; [|by rewrite isinstance_Exception].
      unfold App.session_set. rewrite !bind_modify. split; [done|]. right.
      by exists access_token, id_token, userinfo_resp, userinfo, preferred, user. }
  unfold try_except. destruct (body s) as [[v|e] s']; simpl in Hbody.
  - destruct v; [done|]. destruct Hbody as [-> Hout]. split; [done|]. by exists c.
  - subst s'. subst handlers. cbv beta.
    destruct (isinstance e RequestException); [done|].
    by destruct (isinstance e JSONDecodeError).
Qed.

(** C5, as the code has it. After a token response with an access
    token and an ID token:
    - when the userinfo endpoint answers with an error status and the
      ID token decodes (unverified) to a claims mapping, [callback]
      stores those claims as the userinfo, and the identity is their
      [preferred_username] when it is there and truthy (so ["alice"]
      for [preferred_username=alice]), and their [sub] otherwise, in
      particular when [preferred_username] is absent;
    - when the userinfo request fails with a network error (a
      [RequestException]), there is no fallback: [callback] answers
      500 "Connection error" and leaves the session as it was. *)
Theorem callback_fallback_identity (c args : string) (s : session)
    (access_token : string) (id_token : pyval) :
  tokens_received c access_token id_token →
  truthy id_token = true →
  (∀ userinfo_resp claims,
     userinfo_request access_token = Ok userinfo_resp →
     ok userinfo_resp = false →
     decode id_token = Ok (PDict claims) →
     let preferred := from_option id PNone (assoc "preferred_username" claims) in
     let sub := from_option id PNone (assoc "sub" claims) in
     let user := if truthy preferred then preferred else sub in
     callback (Some c) args s
     = (Ok (App.Redirect App.url_for_index),
        logged_in user (PDict claims) access_token id_token s)
     ∧ (assoc "preferred_username" claims = None → user = sub))
  ∧ (∀ e,
       userinfo_request access_token = Raise e →
       isinstance e RequestException = true →
       callback (Some c) args s
       = (Ok (App.Body ("Connection error: " ++ exn_msg e) 500), s)).
Proof.
  intros Hrecv Hidt. split.
  - intros userinfo_resp claims Hget Hok' Hdec preferred sub user. split.
    + apply (callback_fallback_success c args s access_token id_token userinfo_resp
               (PDict claims) preferred user); try done.
      subst user. by destruct (truthy preferred).
    + intros Habsent. subst user preferred. by rewrite Habsent.
  - intros e Hget Hreq. by eapply callback_userinfo_network_error.
Qed.

End CallbackFacts.

(** C5 at: code ["abc123"], both tokens received, the userinfo
    endpoint answers 401, the ID token holds the claims of alice. The
    identity is ["alice"]. *)
Lemma callback_fallback_identity_witness :
  Provider.callback (Provider.token_endpoint Provider.both_tokens)
    (Provider.userinfo_endpoint (Ok (Doubles.error_response 401 "Unauthorized")))
    (Some "abc123") "" ∅
  = (Ok (App.Redirect "/"),
     <["id_token" := PStr "h2.c2.s2"]>
       (<["access_token" := PStr "h.c.s"]>
          (<["userinfo" := PDict Doubles.alice]> (<["user" := PStr "alice"]> ∅)))).
Proof.
  refine (proj1 (proj1 (callback_fallback_identity
            Doubles.echo_b64decode Doubles.alice_json_loads
            "my-client" "secret" "http://keycloak:8080/realms/myrealm"
            (Provider.token_endpoint Provider.both_tokens)
            (Provider.userinfo_endpoint (Ok (Doubles.error_response 401 "Unauthorized")))
            "abc123" "" ∅ "h.c.s" (PStr "h2.c2.s2") _ _)
          (Doubles.error_response 401 "Unauthorized") Doubles.alice _ _ _)).
  - split; [reflexivity|].
    exists (Doubles.ok_response Provider.both_tokens), Provider.both_tokens, (PStr "h.c.s").
    repeat split; reflexivity.
  - reflexivity.
  - reflexivity.
  - reflexivity.
  - reflexivity.
Defined.

(** C5 as stated fails at: code ["abc123"], both tokens received, the
    ID token holds the claims of alice, and the userinfo request fails
    with a network error. [callback] answers 500 and stores nothing. *)
Lemma callback_no_fallback_on_network_error :
  App.decode_jwt Doubles.echo_b64decode Doubles.alice_json_loads (PStr "h2.c2.s2")
  = Ok (PDict Doubles.alice)
  ∧ Provider.callback (Provider.token_endpoint Provider.both_tokens)
      (Provider.userinfo_endpoint (Raise (Exn RequestException "Read timed out.")))
      (Some "abc123") "" ∅
    = (Ok (App.Body "Connection error: Read timed out." 500), ∅).
Proof. split; reflexivity. Qed.

(** C4 at: code ["abc123"], an access token received, and the userinfo
    endpoint answers 2xx with [{"sub": "u1"}]. The stored userinfo is
    the body, and the stored identity is [None], not ["u1"]: the
    successful path reads [preferred_username] alone. *)
Lemma callback_userinfo_without_preferred_username :
  let userinfo := PDict [("sub", PStr "u1")] in
  let out :=
    Provider.callback (Provider.token_endpoint Provider.access_token_only)
      (Provider.userinfo_endpoint (Ok (Doubles.ok_response userinfo)))
      (Some "abc123") "" ∅ in
  out.1 = Ok (App.Redirect "/")
  ∧ out.2 !! "userinfo" = Some userinfo
  ∧ out.2 !! "user" = Some PNone
  ∧ py_get userinfo "sub" = Ok (PStr "u1").
Proof. by vm_compute. Qed.

(** The same claims on the fallback path give the identity ["u1"]. *)
Lemma callback_fallback_without_preferred_username :
  let out :=
    App.callback Doubles.echo_b64decode (fun _ => Ok (PDict [("sub", PStr "u1")]))
      "my-client" "secret" "http://keycloak:8080/realms/myrealm"
      (Provider.token_endpoint Provider.both_tokens)
      (Provider.userinfo_endpoint (Ok (Doubles.error_response 401 "Unauthorized")))
      (Some "abc123") "" ∅ in
  out.1 = Ok (App.Redirect "/") ∧ out.2 !! "user" = Some (PStr "u1").
Proof. by vm_compute. Qed.

(** The end-to-end scenario of the specification: bob logs in. *)
Lemma callback_bob :
  let userinfo := PDict [("preferred_username", PStr "bob"); ("sub", PStr "u1")] in
  let out :=
    Provider.callback (Provider.token_endpoint Provider.both_tokens)
      (Provider.userinfo_endpoint (Ok (Doubles.ok_response userinfo)))
      (Some "abc123") "" ∅ in
  out.1 = Ok (App.Redirect "/") ∧ out.2 !! "user" = Some (PStr "bob").
Proof. by vm_compute. Qed.

(** ** The signing-key cache *)

Import ResourceServer.

Section CacheFacts.

Variable provider : nat → string → Z → result response.

Abbreviation get_keycloak_jwks := (ResourceServer.get_keycloak_jwks provider).
Abbreviation fetched := (ResourceServer.fetched provider).
Abbreviation calls := (ResourceServer.calls provider).

(** With a value cached, a call returns it and touches nothing. *)
Lemma get_keycloak_jwks_cached (p : process) :
  is_None (_cached_jwks p) = false → get_keycloak_jwks p = (Ok (_cached_jwks p), p).
Proof.
  intros Hc. unfold ResourceServer.get_keycloak_jwks, bind, get_state. by rewrite Hc.
Qed.

(** With nothing cached, a call sends one request. *)
Lemma get_keycloak_jwks_empty (p : process) :
  is_None (_cached_jwks p) = true →
  get_keycloak_jwks p
  = match fetched (upstream_fetches p) with
    | Ok body => (Ok body, Process body (S (upstream_fetches p)))
    | Raise e => (Raise (reraised e), Process (_cached_jwks p) (S (upstream_fetches p)))
    end.
Proof.
  intros Hc.
  unfold ResourceServer.get_keycloak_jwks, ResourceServer.fetched, reraised,
    bind, get_state, try_except, requests_get, set_cached_jwks, modify, lift, raise, ret.
  rewrite Hc. cbn [_cached_jwks upstream_fetches].
  destruct (provider _ _ _) as [response|e].
  - destruct (raise_for_status response) as [[]|e].
    + by destruct (json response) as [body|e]; [|destruct (isinstance e RequestException)].
    + by destruct (isinstance e RequestException).
  - by destruct (isinstance e RequestException).
Qed.

(** What a call returns is what the cache holds afterwards. *)
Lemma get_keycloak_jwks_returns_cache (p p' : process) (v : pyval) :
  get_keycloak_jwks p = (Ok v, p') → v = _cached_jwks p'.
Proof.
  destruct (is_None (_cached_jwks p)) eqn:Hc.
  - rewrite get_keycloak_jwks_empty by done.
    destruct (fetched _); intros [= <- <-]; done.
  - rewrite get_keycloak_jwks_cached by done. by intros [= <- <-].
Qed.

Lemma calls_cached (n : nat) (p : process) :
  is_None (_cached_jwks p) = false →
  calls n p = (replicate n (Ok (_cached_jwks p)), p).
Proof.
  intros Hc. induction n as [|n IH]; [done|].
  cbn [ResourceServer.calls]. by rewrite get_keycloak_jwks_cached, IH.
Qed.

Lemma misses_replicate (n : nat) (v : pyval) :
  is_None v = false → misses (replicate n (Ok v)) = 0.
Proof.
  intros Hv. unfold misses. induction n as [|n IH]; [done|].
  cbn. by rewrite Hv.
Qed.

Lemma existsb_replicate (n : nat) (v : pyval) :
  is_None v = false → existsb is_key_set (replicate (S n) (Ok v)) = true.
Proof. intros Hv. cbn. by rewrite Hv. Qed.

(** C10. The cache keeps successful results only. A call that finds the
    cache empty sends one request.
    - When the fetch fails (the request raises, as for a network error,
      or [raise_for_status] raises, as for an error status, or the body
      is no JSON), the exception goes to the caller (as a
      [ConnectionError] when it is a [RequestException]), nothing is
      cached, and the next call sends a request again.
    - When the fetch succeeds, the parsed body is cached and returned;
      once the cache holds a key set, every later call returns it and
      the process does not change: the cached value is not replaced and
      no request is sent.
    ([_cached_jwks is None] is the test for an empty cache, so a body
    that is JSON [null] leaves the cache empty.) *)
Theorem jwks_cache_memoizes_success (p : process) :
  is_None (_cached_jwks p) = true →
  match fetched (upstream_fetches p) with
  | Raise e =>
      let p' := Process PNone (S (upstream_fetches p)) in
      get_keycloak_jwks p = (Raise (reraised e), p')
      ∧ upstream_fetches (get_keycloak_jwks p').2 = S (upstream_fetches p')
  | Ok body =>
      let p' := Process body (S (upstream_fetches p)) in
      get_keycloak_jwks p = (Ok body, p')
      ∧ (is_None body = false → ∀ n, calls n p' = (replicate n (Ok body), p'))
  end.
Proof.
  intros Hc. rewrite (get_keycloak_jwks_empty p Hc).
  destruct (fetched (upstream_fetches p)) as [body|e]; cbv zeta.
  - split; [done|]. intros Hbody n. by apply calls_cached.
  - assert (_cached_jwks p = PNone) as -> by (by destruct (_cached_jwks p)).
    split; [done|]. rewrite get_keycloak_jwks_empty by done.
    by destruct (fetched _).
Qed.

(** C2, as the code has it. A call made while a key set is cached
    returns it without a request, however many calls there are. A call
    that finds the cache empty sends a request, also after failed
    attempts: over a run of calls that starts with an empty cache, the
    requests sent are one for each call that returned no key set, and
    one more for the call that fetched the key set, if there is one. *)
Theorem jwks_fetches_counted (n : nat) (p : process) :
  (is_None (_cached_jwks p) = false →
   calls n p = (replicate n (Ok (_cached_jwks p)), p))
  ∧ (is_None (_cached_jwks p) = true →
     upstream_fetches (calls n p).2
     = upstream_fetches p + misses (calls n p).1
       + (if existsb is_key_set (calls n p).1 then 1 else 0)).
Proof.
  split; [apply calls_cached|].
  revert p. induction n as [|n IH]; intros p Hc; [cbn; lia|].
  cbn [ResourceServer.calls]. rewrite (get_keycloak_jwks_empty p Hc).
  destruct (fetched (upstream_fetches p)) as [body|e].
  - destruct (is_None body) eqn:Hbody.
    + specialize (IH (Process body (S (upstream_fetches p))) Hbody).
      destruct (calls n _) as [rs p'']. cbn in *. rewrite Hbody. cbn. lia.
    + rewrite calls_cached by done. cbn [fst snd _cached_jwks upstream_fetches].
      unfold misses. cbn [List.filter existsb is_key_set]. rewrite Hbody. cbn [negb orb].
      fold (misses (replicate n (Ok body))). rewrite misses_replicate by done. lia.
  - specialize (IH (Process (_cached_jwks p) (S (upstream_fetches p))) Hc).
    destruct (calls n _) as [rs p'']. cbn in *. lia.
Qed.
End CacheFacts.

Lemma startswith_app (prefix s : string) :
  startswith prefix s = true → ∃ rest, s = prefix ++ rest.
Proof.
  revert s. induction prefix as [|a prefix IH]; intros s; [by exists s|].
  destruct s as [|b s]; [done|]. cbn [startswith].
  intros [Hab Hrest]%andb_prop. apply bool_decide_eq_true_1 in Hab as ->.
  destruct (IH s Hrest) as [rest ->]. by exists rest.
Qed.

Lemma split_on_cons_ne (sep c : ascii) (s : string) :
  c ≠ sep →
  split_on sep (String c s)
  = match split_on sep s with
    | [] => [String c EmptyString]
    | h :: t => String c h :: t
    end.
Proof. intros Hne. cbn [split_on]. by rewrite bool_decide_eq_false_2. Qed.

Lemma split_on_cons_eq (sep : ascii) (s : string) :
  split_on sep (String sep s) = EmptyString :: split_on sep s.
Proof. cbn [split_on]. by rewrite bool_decide_eq_true_2. Qed.

Lemma split_bearer (h : string) :
  startswith "Bearer " h = true → ∃ token, split_on " "%char h !! 1%nat = Some token.
Proof.
  intros [rest ->]%startswith_app.
  change ("Bearer " ++ rest)
    with (String "B" (String "e" (String "a" (String "r" (String "e" (String "r"
           (String " " rest))))))).
  rewrite !split_on_cons_ne, split_on_cons_eq by done.
  pose proof (split_on_nonempty " " rest) as Hne.
  destruct (split_on " " rest) as [|token parts]; [done|]. by exists token.
Qed.

Section VerifierFacts.

Variable provider : nat → string → Z → result response.
Variable jwt_decode :
  string → pyval → string → string → list string → list (string * bool) → result pyval.
Variable header_alg : string → option string.

Abbreviation validate_token := (ResourceServer.validate_token provider jwt_decode).
Abbreviation protected_resource := (ResourceServer.protected_resource provider jwt_decode).

(** [validate_token], clause by clause. *)
Lemma validate_token_unfold (token : string) (p : process) :
  validate_token token p
  = match get_keycloak_jwks provider p with
    | (Ok jwks, p') =>
        match jwt_decode token jwks EXPECTED_AUDIENCE KEYCLOAK_ISSUER
                ["RS256"] [("verify_at_hash", false)] with
        | Ok claims => (Ok claims, p')
        | Raise e =>
            (Raise (Exn ValueError
               ((if isinstance e JWTClaimsError then "Token claims invalid: "
                 else if isinstance e JWTError then "Token verification failed: "
                 else if isinstance e JWKError then "JWK error during token verification: "
                 else "Token validation failed due to unexpected error: ")
                ++ exn_msg e)), p')
        end
    | (Raise e, p') => (Raise e, p')
    end.
Proof.
  unfold ResourceServer.validate_token, bind, try_except, lift, raise.
  destruct (get_keycloak_jwks provider p) as [[jwks|e] p']; [|done].
  destruct (jwt_decode _ _ _ _ _ _) as [claims|e]; [done|].
  rewrite (isinstance_Exception e).
  by repeat destruct (isinstance e _).
Qed.

Lemma validate_token_accepted (token : string) (p p' : process) (claims : pyval) :
  validate_token token p = (Ok claims, p') →
  get_keycloak_jwks provider p = (Ok (_cached_jwks p'), p')
  ∧ jwt_decode token (_cached_jwks p') EXPECTED_AUDIENCE KEYCLOAK_ISSUER
      ["RS256"] [("verify_at_hash", false)] = Ok claims.
Proof.
  rewrite validate_token_unfold.
  destruct (get_keycloak_jwks provider p) as [[jwks|e] q] eqn:Hget; [|done].
  destruct (jwt_decode _ _ _ _ _ _) as [claims'|e] eqn:Hdec; [|done].
  intros [= -> ->]. apply get_keycloak_jwks_returns_cache in Hget as Heq. by subst jwks.
Qed.

(** C1, as the code has it. With a python-jose that enforces
    [algorithms], a token whose header names an algorithm other than
    RS256 ([none], HS256, ...) is never accepted, whatever its claims:
    - when the key set is there (cached, or fetched by this call),
      [validate_token] raises the [ValueError] "Token verification
      failed: ..." (the specification's TokenInvalid);
    - when the key set cannot be fetched, [validate_token] raises what
      [get_keycloak_jwks] raised (a [ConnectionError], the
      specification's KeySetUnavailable), before it looks at the token.
    A token is accepted only when [jwt.decode] accepts it for the
    cached key set with [algorithms=["RS256"]]. *)
Theorem validate_token_rejects_other_algorithms (token alg : string) (p : process) :
  enforces_algorithms header_alg jwt_decode →
  header_alg token = Some alg →
  alg ≠ "RS256" →
  match get_keycloak_jwks provider p with
  | (Ok jwks, p') =>
      ∃ msg, validate_token token p
             = (Raise (Exn ValueError ("Token verification failed: " ++ msg)), p')
  | (Raise e, p') =>
      validate_token token p = (Raise e, p')
  end
  ∧ (∀ claims p', validate_token token p ≠ (Ok claims, p'))
  ∧ (∀ token' claims p',
       validate_token token' p = (Ok claims, p') →
       jwt_decode token' (_cached_jwks p') EXPECTED_AUDIENCE KEYCLOAK_ISSUER
         ["RS256"] [("verify_at_hash", false)] = Ok claims).
Proof.
  intros Hjose Halg Hne.
  assert (∀ key, ∃ msg,
            jwt_decode token key EXPECTED_AUDIENCE KEYCLOAK_ISSUER
              ["RS256"] [("verify_at_hash", false)] = Raise (Exn JWTError msg)) as Hdec.
  { intros key. apply (Hjose token key _ _ _ _ alg Halg); [|done].
    by intros ->%list_elem_of_singleton. }
  split_and!.
  - rewrite validate_token_unfold.
    destruct (get_keycloak_jwks provider p) as [[jwks|e] p']; [|done].
    destruct (Hdec jwks) as [msg ->]. by exists msg.
  - intros claims p'. rewrite validate_token_unfold.
    destruct (get_keycloak_jwks provider p) as [[jwks|e] q]; [|done].
    by destruct (Hdec jwks) as [msg ->].
  - intros token' claims p' Hok. by apply validate_token_accepted in Hok as [_ ?].
Qed.

(** C7. [protected_resource] always answers, with 200, 401 or 500, and
    every answer but the 200 is a JSON object with the one field
    [message].
    - A missing or malformed [Authorization] header: 401.
    - [validate_token] raises a [ValueError] (the specification's
      TokenInvalid; [validate_token] raises it for whatever
      [jwt.decode] raised): 401.
    - [validate_token] raises a [ConnectionError] (the key set is
      unavailable): 500.
    - Any other exception, from [validate_token] or from reading the
      claims: 500, with a fixed message that holds no exception text.
    - 200 only when [validate_token] returned the claims, with the
      payload built from the token and the claims. *)
Theorem protected_resource_status (auth_header : option string) (p : process) :
  ∃ body status p',
    protected_resource auth_header p = (Ok (body, status), p')
    ∧ (status = 200 ∨ status = 401 ∨ status = 500)%Z
    ∧ (status ≠ 200%Z → ∃ text, body = message text)
    ∧ match bearer_token auth_header with
      | None => status = 401%Z ∧ p' = p
      | Some token =>
          match validate_token token p with
          | (Raise e, q) =>
              q = p'
              ∧ if isinstance e ValueError then
                  status = 401%Z ∧ body = message ("Unauthorized: " ++ exn_msg e)
                else if isinstance e ConnectionError then
                  status = 500%Z
                  ∧ body = message
                      ("Server error: Could not connect to Keycloak for token validation: "
                         ++ exn_msg e)
                else
                  status = 500%Z ∧ body = message "An internal server error occurred."
          | (Ok claims, q) =>
              q = p'
              ∧ match py_get_default claims "sub" (PStr "unknown"),
                      py_get_default claims "preferred_username" (PStr "unknown") with
                | Ok user_id, Ok preferred_username =>
                    status = 200%Z
                    ∧ body = protected_data token claims user_id preferred_username
                | _, _ =>
                    status = 500%Z ∧ body = message "An internal server error occurred."
                end
          end
      end.
Proof.
  unfold ResourceServer.protected_resource, bearer_token.
  destruct auth_header as [h|]; [|by eexists _, _, _; split_and!; eauto].
  destruct (truthy (PStr h)) eqn:Hh; cbn [negb andb];
    [|by eexists _, _, _; split_and!; eauto].
  destruct (startswith "Bearer " h) eqn:Hb; cbn [negb];
    [|by eexists _, _, _; split_and!; eauto].
  destruct (split_bearer h Hb) as [token Htoken]. rewrite Htoken, bind_lift.
  unfold try_except, bind at 1.
  destruct (validate_token token p) as [[claims|e] q].
  - rewrite bind_lift.
    destruct (py_get_default claims "sub" (PStr "unknown")) as [user_id|e] eqn:Hsub.
    + rewrite bind_lift.
      destruct (py_get_default claims "preferred_username" (PStr "unknown"))
        as [preferred_username|e] eqn:Hpref.
      * eexists _, _, _; split_and!; eauto. done.
      * by destruct claims.
    + assert (isinstance e ValueError = false ∧ isinstance e ConnectionError = false)
        as [-> ->].
      { by destruct claims; simplify_eq/=. }
      rewrite isinstance_Exception. eexists _, _, _; split_and!; eauto.
  - destruct (isinstance e ValueError) eqn:Hv;
      [by eexists _, _, _; split_and!; eauto|].
    destruct (isinstance e ConnectionError) eqn:Hc;
      [by eexists _, _, _; split_and!; eauto|].
    rewrite isinstance_Exception. by eexists _, _, _; split_and!; eauto.
Qed.

End VerifierFacts.

Section ThreadFacts.

Variable provider : nat → string → Z → result response.

Abbreviation step_caller := (ResourceServer.step_caller provider).
Abbreviation step := (ResourceServer.step provider).
Abbreviation run := (ResourceServer.run provider).

Lemma step_caller_request (p : process) :
  step_caller AtRequest p
  = match ResourceServer.fetched provider (upstream_fetches p) with
    | Ok body => (AtStore body, Process (_cached_jwks p) (S (upstream_fetches p)))
    | Raise e => (Raised (reraised e), Process (_cached_jwks p) (S (upstream_fetches p)))
    end.
Proof.
  unfold ResourceServer.step_caller, ResourceServer.fetched, reraised,
    bind, try_except, requests_get, lift, raise.
  cbn [_cached_jwks upstream_fetches].
  destruct (provider _ _ _) as [response|e].
  - destruct (raise_for_status response) as [[]|e].
    + by destruct (json response) as [body|e]; [|destruct (isinstance e RequestException)].
    + by destruct (isinstance e RequestException).
  - by destruct (isinstance e RequestException).
Qed.

(** A request is sent only by a caller that was pending, and is
    pending no more. *)
Lemma step_caller_pending (c : caller) (p : process) :
  (upstream_fetches (step_caller c p).2 + pending (step_caller c p).1
   ≤ upstream_fetches p + pending c)%nat.
Proof.
  destruct c; try (cbn; lia).
  - cbn. destruct (is_None (_cached_jwks p)); cbn; lia.
  - rewrite step_caller_request. destruct (ResourceServer.fetched _ _); cbn; lia.
Qed.

Lemma total_pending_insert (pool : list caller) (i : nat) (c c' : caller) :
  pool !! i = Some c →
  (total_pending (<[i := c']> pool) + pending c = total_pending pool + pending c')%nat.
Proof.
  revert i. induction pool as [|d pool IH]; intros [|i] Hi; try done.
  - injection Hi as ->. cbn. lia.
  - change (<[S i:=c']> (d :: pool)) with (d :: <[i:=c']> pool).
    cbn [total_pending]. specialize (IH i Hi). lia.
Qed.

Lemma step_pending (i : nat) (st : process * list caller) :
  (upstream_fetches (step i st).1 + total_pending (step i st).2
   ≤ upstream_fetches st.1 + total_pending st.2)%nat.
Proof.
  destruct st as [p pool]. unfold ResourceServer.step. cbn [fst snd].
  destruct (pool !! i) as [c|] eqn:Hi; [|done].
  pose proof (step_caller_pending c p) as Hstep.
  destruct (step_caller c p) as [c' p']. cbn [fst snd] in *.
  pose proof (total_pending_insert pool i c c' Hi). lia.
Qed.

Lemma run_pending (schedule : list nat) (st : process * list caller) :
  (upstream_fetches (run schedule st).1 + total_pending (run schedule st).2
   ≤ upstream_fetches st.1 + total_pending st.2)%nat.
Proof.
  revert st. induction schedule as [|i schedule IH]; intros st; [done|].
  cbn. etrans; [apply IH|]. apply step_pending.
Qed.

Lemma total_pending_replicate (n : nat) : total_pending (replicate n AtTest) = n.
Proof. induction n as [|n IH]; cbn; [done|]. by rewrite IH. Qed.

Lemma run_app (a b : list nat) (st : process * list caller) :
  run (a ++ b) st = run b (run a st).
Proof. apply fold_left_app. Qed.

(** A caller that runs its four statements undisturbed does what
    [get_keycloak_jwks] does. *)
Lemma run_caller_alone (pool : list caller) (i : nat) (p : process) :
  pool !! i = Some AtTest →
  run [i; i; i; i] (p, pool)
  = ((get_keycloak_jwks provider p).2, <[i := outcome (get_keycloak_jwks provider p).1]> pool).
Proof.
  intros Hi. pose proof (lookup_lt_Some _ _ _ Hi) as Hlt.
  unfold ResourceServer.run. cbn [fold_left].
  unfold ResourceServer.step at 4. cbn [fst snd]. rewrite Hi.
  cbn [ResourceServer.step_caller].
  destruct (is_None (_cached_jwks p)) eqn:Hc.
  - rewrite get_keycloak_jwks_empty by done.
    unfold ResourceServer.step at 3. cbn [fst snd].
    rewrite list_lookup_insert_eq by done. rewrite step_caller_request.
    destruct (ResourceServer.fetched provider (upstream_fetches p)) as [body|e].
    + unfold ResourceServer.step. cbn [fst snd].
      rewrite !list_insert_insert_eq.
      rewrite list_lookup_insert_eq by done. cbn.
      rewrite !list_insert_insert_eq.
      rewrite list_lookup_insert_eq by done. cbn.
      by rewrite !list_insert_insert_eq.
    + unfold ResourceServer.step. cbn [fst snd].
      rewrite !list_insert_insert_eq.
      rewrite list_lookup_insert_eq by done. cbn.
      rewrite !list_insert_insert_eq.
      rewrite list_lookup_insert_eq by done. cbn.
      by rewrite !list_insert_insert_eq.
  - rewrite get_keycloak_jwks_cached by done.
    unfold ResourceServer.step. cbn [fst snd].
    rewrite list_lookup_insert_eq by done. cbn.
    rewrite !list_insert_insert_eq.
    rewrite list_lookup_insert_eq by done. cbn.
    rewrite !list_insert_insert_eq.
    rewrite list_lookup_insert_eq by done. cbn.
    by rewrite !list_insert_insert_eq.
Qed.

Lemma run_serial_from (m : nat) (finished : list caller) (p : process) :
  run (flat_map (fun i => [i; i; i; i]) (seq (length finished) m))
    (p, (finished ++ replicate m AtTest)%list)
  = ((ResourceServer.calls provider m p).2,
     (finished ++ (outcome <$> (ResourceServer.calls provider m p).1))%list).
Proof.
  revert finished p. induction m as [|m IH]; intros finished p; [done|].
  cbn [seq flat_map replicate ResourceServer.calls].
  rewrite run_app, run_caller_alone by (by rewrite lookup_app_r, Nat.sub_diag).
  replace (<[length finished := _]> (finished ++ AtTest :: replicate m AtTest)%list)
    with ((finished ++ [outcome (get_keycloak_jwks provider p).1])
            ++ replicate m AtTest)%list.
  2:{ rewrite insert_app_r_alt, Nat.sub_diag by done. by rewrite <- app_assoc. }
  replace (S (length finished))
    with (length (finished ++ [outcome (get_keycloak_jwks provider p).1])%list)
    by (rewrite length_app; cbn; lia).
  rewrite IH.
  destruct (get_keycloak_jwks provider p) as [r p']. cbn [fst snd].
  destruct (ResourceServer.calls provider m p') as [rs p'']. cbn [fst snd fmap list_fmap].
  by rewrite <- app_assoc.
Qed.

(** C8, as the code has it. [get_keycloak_jwks] takes no lock. Of [n]
    callers that start on an empty cache, each sends at most one
    request, so at most [n] requests are sent on any schedule (and [n]
    can be, with callers that return different key sets). On the
    schedule where the callers do not overlap they behave as [n] calls
    in a row. *)
Theorem concurrent_callers_fetch_once_each (n : nat) (schedule : list nat) :
  (upstream_fetches (run schedule (started, replicate n AtTest)).1 ≤ n)%nat
  ∧ run (serial n) (started, replicate n AtTest)
    = ((ResourceServer.calls provider n started).2,
       outcome <$> (ResourceServer.calls provider n started).1).
Proof.
  split.
  - pose proof (run_pending schedule (started, replicate n AtTest)) as H.
    cbn [fst snd] in H. rewrite total_pending_replicate in H. cbn in H. lia.
  - apply (run_serial_from n [] started).
Qed.

End ThreadFacts.

(** ** The resource server on concrete inputs *)

Lemma doubles_jwt_decode_enforces_algorithms :
  enforces_algorithms Doubles.header_alg Doubles.jwt_decode.
Proof.
  intros token key audience issuer algorithms options alg Halg Hnotin _.
  unfold Doubles.jwt_decode. rewrite Halg.
  rewrite bool_decide_eq_false_2 by done. by eexists.
Qed.

(** C1 at the token ["none.claims."], with the key set served: the
    token is refused with a [ValueError]. *)
Lemma validate_token_rejects_other_algorithms_witness :
  ∃ msg,
    ResourceServer.validate_token Doubles.up Doubles.jwt_decode "none.claims." started
    = (Raise (Exn ValueError ("Token verification failed: " ++ msg)),
       Process Doubles.jwks 1).
Proof.
  exact (proj1 (validate_token_rejects_other_algorithms
                  Doubles.up Doubles.jwt_decode Doubles.header_alg
                  "none.claims." "none" started
                  doubles_jwt_decode_enforces_algorithms eq_refl ltac:(done))).
Defined.

(** C1 as stated fails at the token ["none.claims."] when the process
    has just started and the identity provider cannot be reached: what
    [validate_token] raises is the [ConnectionError] of the cache, and
    no [ValueError]. *)
Lemma validate_token_key_set_unavailable :
  Doubles.header_alg "none.claims." = Some "none"
  ∧ ResourceServer.validate_token Doubles.down Doubles.jwt_decode "none.claims." started
    = (Raise (Exn ConnectionError
                "Could not fetch JWKS from Keycloak: Connection refused"),
       Process PNone 1)
  ∧ isinstance (Exn ConnectionError
                  "Could not fetch JWKS from Keycloak: Connection refused") ValueError
    = false.
Proof. by vm_compute. Qed.

(** C10 at a process that has just started, with an identity provider
    that cannot be reached at first: the first call raises and caches
    nothing, the second sends a request again. *)
Lemma jwks_cache_memoizes_success_witness :
  ResourceServer.get_keycloak_jwks Doubles.down_then_up started
  = (Raise (Exn ConnectionError "Could not fetch JWKS from Keycloak: Connection refused"),
     Process PNone 1)
  ∧ upstream_fetches
      (ResourceServer.get_keycloak_jwks Doubles.down_then_up (Process PNone 1)).2 = 2%nat.
Proof.
  exact (jwks_cache_memoizes_success Doubles.down_then_up started eq_refl).
Defined.

(** C2 at three calls, the first of which cannot reach the identity
    provider: two requests are sent. *)
Lemma jwks_fetches_counted_witness :
  upstream_fetches (ResourceServer.calls Doubles.down_then_up 3 started).2 = 2%nat.
Proof.
  exact (proj2 (jwks_fetches_counted Doubles.down_then_up 3 started) eq_refl).
Defined.

(** C2 as stated fails at two calls, the first of which cannot reach
    the identity provider: the second call sends the second request of
    the process. *)
Lemma jwks_fetched_again_after_failure :
  ResourceServer.calls Doubles.down_then_up 2 started
  = ([Raise (Exn ConnectionError "Could not fetch JWKS from Keycloak: Connection refused");
      Ok Doubles.jwks],
     Process Doubles.jwks 2).
Proof. by vm_compute. Qed.

(** C8 as stated fails at two callers and an identity provider that
    serves a new key set at every request: both callers test the cache
    before either stores, two requests are sent, and the callers return
    different key sets. *)
Lemma concurrent_callers_fetch_twice :
  ResourceServer.run Doubles.rotating [0; 1; 0; 0; 0; 1; 1; 1]%nat
    (started, [AtTest; AtTest])
  = (Process (Doubles.keys 1) 2,
     [Returned (Doubles.keys 0); Returned (Doubles.keys 1)]).
Proof. by vm_compute. Qed.

(** The three answers of [protected_resource]. *)
Lemma protected_resource_401 :
  (ResourceServer.protected_resource Doubles.up Doubles.jwt_decode
     (Some "Bearer none.claims.") started).1
  = Ok (message "Unauthorized: Token verification failed: The specified alg value is not allowed",
        401%Z).
Proof. by vm_compute. Qed.

Lemma protected_resource_500 :
  (ResourceServer.protected_resource Doubles.down Doubles.jwt_decode
     (Some "Bearer RS256.claims.signature") started).1
  = Ok (message ("Server error: Could not connect to Keycloak for token validation: "
                 ++ "Could not fetch JWKS from Keycloak: Connection refused"),
        500%Z).
Proof. by vm_compute. Qed.

Lemma protected_resource_200 :
  (ResourceServer.protected_resource Doubles.up Doubles.jwt_decode
     (Some "Bearer RS256.claims.signature") started).1
  = Ok (protected_data "RS256.claims.signature" (PDict Doubles.alice)
          (PStr "u1") (PStr "alice"),
        200%Z).
Proof. by vm_compute. Qed.

(** ** More on the decoder *)

Lemma string_app_cons (c : ascii) (s t : string) : String c s ++ t = String c (s ++ t).
Proof. done. Qed.

Lemma split_on_free (sep : ascii) (s : string) :
  str_contains sep s = false → split_on sep s = [s].
Proof.
  induction s as [|a s IH]; [done|]. cbn [str_contains].
  intros [Ha Hs]%orb_false_elim. apply bool_decide_eq_false_1 in Ha.
  rewrite split_on_cons_ne, IH by done. done.
Qed.

Lemma split_on_app (sep : ascii) (s rest : string) :
  str_contains sep s = false →
  split_on sep (s ++ String sep rest) = s :: split_on sep rest.
Proof.
  induction s as [|a s IH]; intros Hs.
  - change ("" ++ String sep rest) with (String sep rest). apply split_on_cons_eq.
  - cbn [str_contains] in Hs. apply orb_false_elim in Hs as [Ha Hs].
    apply bool_decide_eq_false_1 in Ha.
    rewrite string_app_cons, split_on_cons_ne, IH by done. done.
Qed.

Section MoreDecoderFacts.
Variable urlsafe_b64decode : string → result (list Byte.byte).
Variable json_loads : list Byte.byte → result pyval.
Abbreviation decode_jwt := (App.decode_jwt urlsafe_b64decode json_loads).

(** What [decode_jwt] makes of a token, by its segments. *)
Lemma decode_jwt_of_segments (token payload : string) (first : string) (others : list string) :
  split_on "."%char token = first :: payload :: others →
  decode_jwt (PStr token)
  = match urlsafe_b64decode (payload ++ App.padding payload) with
    | Ok decoded => json_loads decoded
    | Raise e => Raise e
    end.
Proof.
  intros Hsplit. unfold App.decode_jwt, py_split. rewrite Hsplit. cbn [length].
  rewrite bool_decide_eq_false_2 by lia. done.
Qed.

(** X1. [decode_jwt] reads the second segment and nothing else: tokens
    that differ in the header, in the signature, or in having a
    signature at all decode alike, to the same claims or to the same
    exception. No signature is looked at. *)
Theorem decode_jwt_reads_second_segment_only (header header' claims rest rest' : string) :
  str_contains "." header = false →
  str_contains "." header' = false →
  str_contains "." claims = false →
  decode_jwt (PStr (header ++ "." ++ claims ++ "." ++ rest))
  = decode_jwt (PStr (header' ++ "." ++ claims ++ "." ++ rest'))
  ∧ decode_jwt (PStr (header ++ "." ++ claims ++ "." ++ rest))
    = decode_jwt (PStr (header' ++ "." ++ claims)).
Proof.
  intros Hh Hh' Hc.
  assert (∀ h r, str_contains "." h = false →
            ∃ others, split_on "."%char (h ++ "." ++ claims ++ "." ++ r)
                      = h :: claims :: others) as Hthree.
  { intros h r Hfree. exists (split_on "."%char r).
    change ("." ++ claims ++ "." ++ r) with (String "."%char (claims ++ String "."%char r)).
    by rewrite !split_on_app. }
  assert (split_on "."%char (header' ++ "." ++ claims) = [header'; claims]) as Htwo.
  { change ("." ++ claims) with (String "."%char claims).
    by rewrite split_on_app, split_on_free. }
  destruct (Hthree header rest Hh) as [o1 H1].
  destruct (Hthree header' rest' Hh') as [o2 H2].
  rewrite (decode_jwt_of_segments _ _ _ _ H1), (decode_jwt_of_segments _ _ _ _ H2),
    (decode_jwt_of_segments _ _ _ _ Htwo). done.
Qed.
End MoreDecoderFacts.

(** X2. The header the relying party builds, ["Bearer " + token], is
    read back by the resource server as the token up to its first
    space: as the token itself when it holds no space. *)
Theorem bearer_token_round_trip (t : string) :
  bearer_token (Some ("Bearer " ++ t)) = head (split_on " "%char t)
  ∧ (str_contains " " t = false → bearer_token (Some ("Bearer " ++ t)) = Some t).
Proof.
  assert (bearer_token (Some ("Bearer " ++ t)) = head (split_on " "%char t)) as Hhead.
  { unfold bearer_token.
    change ("Bearer " ++ t) with ("Bearer" ++ String " "%char t).
    rewrite split_on_app by done.
    change ("Bearer" ++ String " "%char t) with ("Bearer " ++ t).
    assert (startswith "Bearer " ("Bearer " ++ t) = true) as -> by done.
    by destruct (split_on " "%char t). }
  split; [done|]. intros Hfree. by rewrite Hhead, split_on_free.
Qed.

(** ** Trimming *)








(** ** The stored access token *)

Section TrimFacts.

Variable urlsafe_b64decode : string → result (list Byte.byte).
Variable json_loads : list Byte.byte → result pyval.
Variables CLIENT_ID CLIENT_SECRET AUTH_SERVER_INTERNAL : string.
Variable requests_post : string → list (string * string) → Z → result response.
Variable requests_get : string → list (string * string) → Z → result response.


End TrimFacts.


(** ** The other routes *)

Lemma string_app_assoc (a b c : string) : (a ++ b) ++ c = a ++ b ++ c.
Proof.
  induction a as [|x a IH]; [done|].
  change ((String x a ++ b) ++ c) with (String x ((a ++ b) ++ c)).
  by rewrite IH.
Qed.

Section RouteFacts.

Variable urlsafe_b64decode : string → result (list Byte.byte).
Variable json_loads : list Byte.byte → result pyval.
Variables CLIENT_ID AUTH_SERVER_PUBLIC : string.
Variable requests_get : string → list (string * string) → Z → result response.
Variable py_repr : pyval → string.
Variable exn_response : exn → option response.

Abbreviation session := (gmap string pyval).
Abbreviation login_required := Routes.login_required.
Abbreviation show_token := (Routes.show_token urlsafe_b64decode json_loads).
Abbreviation profile := Routes.profile.
Abbreviation index := Routes.index.
Abbreviation login := (Routes.login CLIENT_ID AUTH_SERVER_PUBLIC).
Abbreviation logout := (Routes.logout AUTH_SERVER_PUBLIC py_repr).
Abbreviation call_protected_api :=
  (Routes.call_protected_api requests_get py_repr exn_response).
Abbreviation api_request := (Routes.api_request requests_get).
Abbreviation to_login := (Ok (Routes.Plain (App.Redirect Routes.url_for_login))).

Lemma bind_session_get {B} (key : string) (k : pyval → M session B) (s : session) :
  bind (Routes.session_get key) k s = k (from_option id PNone (s !! key)) s.
Proof. done. Qed.

(** The guard: the view runs when [session.get('user')] is truthy, and
    the answer is the redirect to [login] otherwise. *)
Lemma login_required_run (f : M session Routes.reply) (s : session) :
  login_required f s
  = if truthy (from_option id PNone (s !! "user")) then f s else (to_login, s).
Proof.
  unfold Routes.login_required. rewrite bind_session_get.
  by destruct (truthy _).
Qed.

(** The four keys read back as written. *)
Lemma logged_in_lookup (user userinfo : pyval) (access_token : string) (id_token : pyval)
    (s : session) :
  let s' := App.logged_in user userinfo access_token id_token s in
  s' !! "user" = Some user ∧ s' !! "userinfo" = Some userinfo
  ∧ s' !! "access_token" = Some (PStr access_token) ∧ s' !! "id_token" = Some id_token.
Proof. unfold App.logged_in. by simplify_map_eq. Qed.

(** X4. After a login the routes show what [callback] stored. [index]
    shows the identity. When the identity is truthy, [profile] shows
    the identity and the stored userinfo, [show_token] shows the
    unverified claims of the stored access token (or answers 500 when
    it does not decode), and [call_protected_api] sends the stored
    access token as the bearer token and shows the JSON body of a
    successful answer; none of them changes the session. When the
    identity is not truthy ([None], as after a userinfo answer with no
    [preferred_username]), the three guarded routes redirect to
    [login]. *)
Theorem routes_after_login (user userinfo : pyval) (access_token : string)
    (id_token : pyval) (s : session) :
  let s' := App.logged_in user userinfo access_token id_token s in
  index s' = (Ok (Routes.Rendered "index.html" [("user", user)]), s')
  ∧ (truthy user = true →
     profile s' = (Ok (Routes.Rendered "profile.html" [("user", user); ("info", userinfo)]), s')
     ∧ (access_token ≠ "" →
        show_token s'
        = (match App.decode_jwt urlsafe_b64decode json_loads (PStr access_token) with
           | Ok claims => Ok (Routes.Rendered "token.html" [("token", claims)])
           | Raise e =>
               Ok (Routes.Plain (App.Body ("Error decoding token: " ++ exn_msg e) 500))
           end, s')
        ∧ ∀ response api_response_data,
            api_request access_token = Ok response →
            raise_for_status response = Ok tt →
            json response = Ok api_response_data →
            call_protected_api s'
            = (Ok (Routes.Rendered "api_response.html"
                     [("api_response", api_response_data)]), s')))
  ∧ (truthy user = false →
     profile s' = (to_login, s') ∧ show_token s' = (to_login, s')
     ∧ call_protected_api s' = (to_login, s')).
Proof.
  intros s'.
  destruct (logged_in_lookup user userinfo access_token id_token s)
    as (Huser & Hinfo & Htoken & Hid). fold s' in Huser, Hinfo, Htoken, Hid.
  split_and!.
  - unfold Routes.index. by rewrite bind_session_get, Huser.
  - intros Htruthy. split.
    + unfold Routes.profile. rewrite login_required_run, Huser. cbn [from_option id].
      rewrite Htruthy. by rewrite !bind_session_get, Huser, Hinfo.
    + intros Hne.
      assert (truthy (PStr access_token) = true) as Hat.
      { cbn. by rewrite bool_decide_eq_false_2. }
      split.
      * unfold Routes.show_token. rewrite login_required_run, Huser. cbn [from_option id].
        rewrite Htruthy, bind_session_get, Htoken. cbn [from_option id]. rewrite Hat.
        cbn [negb]. unfold try_except. rewrite bind_lift.
        destruct (App.decode_jwt _ _ _) as [claims|e]; [done|].
        by rewrite isinstance_Exception.
      * intros response data Hreq Hstatus Hjson. unfold Routes.call_protected_api.
        rewrite login_required_run, Huser. cbn [from_option id].
        rewrite Htruthy, bind_session_get, Htoken. cbn [from_option id]. rewrite Hat.
        cbn [negb Routes.py_format]. unfold try_except.
        fold (api_request access_token).
        by rewrite bind_lift, Hreq, bind_lift, Hstatus, bind_lift, Hjson.
  - intros Hfalsy. unfold Routes.profile, Routes.show_token, Routes.call_protected_api.
    rewrite !login_required_run, Huser. cbn [from_option id]. by rewrite Hfalsy.
Qed.

(** X5. [logout] empties the session whatever it held, and answers
    with the redirect to the provider's logout endpoint; the URL ends
    with [id_token_hint] and the stored ID token when there is one, and
    has no hint otherwise. After it, every guarded view redirects to
    [login] without running. *)
Theorem logout_clears_session (s : session) :
  (∃ url, logout s = (Ok (Routes.Plain (App.Redirect url)), ∅))
  ∧ (∀ f, login_required f (logout s).2 = (to_login, ∅))
  ∧ (∀ t, s !! "id_token" = Some (PStr t) → t ≠ "" →
       logout s
       = (Ok (Routes.Plain (App.Redirect
                (AUTH_SERVER_PUBLIC ++ "/protocol/openid-connect/logout"
                 ++ "?post_logout_redirect_uri=" ++ Routes.POST_LOGOUT_REDIRECT_URI
                 ++ "&id_token_hint=" ++ t))), ∅))
  ∧ (truthy (from_option id PNone (s !! "id_token")) = false →
       logout s
       = (Ok (Routes.Plain (App.Redirect
                (AUTH_SERVER_PUBLIC ++ "/protocol/openid-connect/logout"
                 ++ "?post_logout_redirect_uri=" ++ Routes.POST_LOGOUT_REDIRECT_URI))), ∅)).
Proof.
  assert (∀ s0 : session, (logout s0).2 = ∅) as Hclear by done.
  split_and!.
  - by eexists.
  - intros f. rewrite login_required_run, Hclear. by rewrite lookup_empty.
  - intros t Ht Hne. unfold Routes.logout, Routes.session_clear.
    rewrite bind_session_get, Ht, bind_modify. cbn [from_option id truthy].
    rewrite bool_decide_eq_false_2 by done. cbn [negb Routes.py_format].
    unfold ret. do 3 f_equal.
    by rewrite !string_app_assoc.
  - intros Hfalsy. unfold Routes.logout, Routes.session_clear.
    by rewrite bind_session_get, bind_modify, Hfalsy.
Qed.

(** X6. [show_token], [index], [login], [profile] and
    [call_protected_api] never write the session, whatever the decoders
    and the resource server do. *)
Theorem views_leave_session (s : session) :
  (show_token s).2 = s ∧ (index s).2 = s ∧ (login s).2 = s
  ∧ (profile s).2 = s ∧ (call_protected_api s).2 = s.
Proof.
  split_and!; try done.
  - unfold Routes.show_token. rewrite login_required_run.
    destruct (truthy _); [|done]. rewrite bind_session_get.
    destruct (truthy _); [|done]. cbn [negb]. unfold try_except. rewrite bind_lift.
    destruct (App.decode_jwt _ _ _) as [claims|e]; [done|].
    by rewrite isinstance_Exception.
  - unfold Routes.profile. rewrite login_required_run. by destruct (truthy _).
  - unfold Routes.call_protected_api. rewrite login_required_run.
    destruct (truthy _); [|done]. rewrite bind_session_get.
    destruct (truthy _); [|done]. cbn [negb]. unfold try_except. rewrite bind_lift.
    destruct (requests_get _ _ _) as [response|e].
    + rewrite bind_lift. destruct (raise_for_status response) as [[]|e].
      * rewrite bind_lift. destruct (json response) as [data|e]; [done|].
        destruct (isinstance e RequestException); [done|].
        by destruct (isinstance e JSONDecodeError).
      * destruct (isinstance e RequestException); [done|].
        by destruct (isinstance e JSONDecodeError).
    + destruct (isinstance e RequestException); [done|].
      by destruct (isinstance e JSONDecodeError).
Qed.

(** X7. When the resource server answers with an error status (the 401
    of a refused token as well as a 5xx), [raise_for_status] raises and
    [call_protected_api] answers 500, with the upstream status and body
    in the text; the session is as it was. *)
Theorem call_protected_api_upstream_error (s : session) (t : string)
    (response : response) (e : exn) :
  truthy (from_option id PNone (s !! "user")) = true →
  s !! "access_token" = Some (PStr t) → t ≠ "" →
  api_request t = Ok response →
  raise_for_status response = Raise e →
  isinstance e RequestException = true →
  exn_response e = Some response →
  call_protected_api s
  = (Ok (Routes.Plain
           (App.Body ("Failed to call protected API: Error calling protected API: "
                      ++ exn_msg e ++ " - Status: " ++ pretty (status_code response)
                      ++ ", Response: " ++ text response) 500)), s).
Proof.
  intros Huser Htoken Hne Hreq Hraise Hinst Hresp.
  unfold Routes.call_protected_api. rewrite login_required_run, Huser.
  rewrite bind_session_get, Htoken. cbn [from_option id truthy].
  rewrite bool_decide_eq_false_2 by done. cbn [negb Routes.py_format].
  unfold try_except. fold (api_request t).
  by rewrite bind_lift, Hreq, bind_lift, Hraise, Hinst, Hresp.
Qed.

End RouteFacts.

(** ** More on the resource server *)

Section MoreServerFacts.

Variable provider : nat → string → Z → result response.
Variable jwt_decode :
  string → pyval → string → string → list string → list (string * bool) → result pyval.

Abbreviation get_keycloak_jwks := (ResourceServer.get_keycloak_jwks provider).
Abbreviation fetched := (ResourceServer.fetched provider).
Abbreviation calls := (ResourceServer.calls provider).
Abbreviation validate_token := (ResourceServer.validate_token provider jwt_decode).
Abbreviation protected_resource := (ResourceServer.protected_resource provider jwt_decode).

(** ** More on the resource server *)

(** What [get_keycloak_jwks] raises is no [RequestException]. *)
Lemma reraised_not_requests (e : exn) : isinstance (reraised e) RequestException = false.
Proof. unfold reraised. by destruct (isinstance e RequestException) eqn:He. Qed.

Lemma validate_token_process (token : string) (p : process) :
  (validate_token token p).2 = (get_keycloak_jwks p).2.
Proof.
  rewrite validate_token_unfold.
  destruct (get_keycloak_jwks p) as [[jwks|e] p']; [|done].
  by destruct (jwt_decode _ _ _ _ _ _).
Qed.

Lemma protected_resource_process (auth_header : option string) (p : process) :
  (protected_resource auth_header p).2
  = match bearer_token auth_header with
    | Some _ => (get_keycloak_jwks p).2
    | None => p
    end.
Proof.
  unfold ResourceServer.protected_resource, bearer_token.
  destruct auth_header as [h|]; [|done].
  destruct (truthy (PStr h)); cbn [negb andb]; [|done].
  destruct (startswith "Bearer " h) eqn:Hb; cbn [negb]; [|done].
  destruct (split_bearer h Hb) as [token Htoken]. rewrite Htoken, bind_lift.
  unfold try_except, bind at 1.
  rewrite <- (validate_token_process token p).
  destruct (validate_token token p) as [[claims|e] q]; cbn [snd].
  - rewrite bind_lift. destruct (py_get_default claims "sub" _) as [user_id|e].
    + rewrite bind_lift.
      destruct (py_get_default claims "preferred_username" _) as [preferred|e]; [done|].
      rewrite (isinstance_Exception e).
      by destruct (isinstance e ValueError), (isinstance e ConnectionError).
    + rewrite (isinstance_Exception e).
      by destruct (isinstance e ValueError), (isinstance e ConnectionError).
  - rewrite (isinstance_Exception e).
    by destruct (isinstance e ValueError), (isinstance e ConnectionError).
Qed.

(** X8. One request to [protected_resource] sends at most one request
    upstream, and none when the header is missing or malformed. Once a
    key set is cached, no request changes the process: nothing is
    fetched and the cache stays. A key set the request leaves in a
    cache that was empty is one the provider served. *)
Theorem protected_resource_fetches (auth_header : option string) (p : process) :
  let p' := (protected_resource auth_header p).2 in
  (is_None (_cached_jwks p) = false → p' = p)
  ∧ (bearer_token auth_header = None → p' = p)
  ∧ (upstream_fetches p ≤ upstream_fetches p' ≤ S (upstream_fetches p))%nat
  ∧ (is_None (_cached_jwks p') = false →
     is_None (_cached_jwks p) = true → served provider p' (_cached_jwks p')).
Proof.
  cbv zeta. rewrite protected_resource_process.
  destruct (bearer_token auth_header) as [token|].
  2:{ repeat split; try done; try lia. intros H1 H2. congruence. }
  destruct (is_None (_cached_jwks p)) eqn:Hc.
  - rewrite get_keycloak_jwks_empty by done.
    destruct (fetched (upstream_fetches p)) as [body|e] eqn:Hf;
      cbn [snd upstream_fetches _cached_jwks].
    + repeat split; try done; try lia.
      intros _ _. exists (upstream_fetches p). split; [cbn; lia|done].
    + repeat split; try done; try lia. congruence.
  - rewrite get_keycloak_jwks_cached by done. cbn [snd].
    repeat split; try done; lia.
Qed.

(** X9. What [validate_token] raises is a [ValueError], with the key
    set obtained, or what [get_keycloak_jwks] raised on an empty cache;
    never a [RequestException]. No exception of [jwt.decode] leaves
    [validate_token] as it came. *)
Theorem validate_token_raises (token : string) (p p' : process) (e : exn) :
  validate_token token p = (Raise e, p') →
  isinstance e RequestException = false
  ∧ ((∃ msg jwks, e = Exn ValueError msg ∧ get_keycloak_jwks p = (Ok jwks, p'))
     ∨ (get_keycloak_jwks p = (Raise e, p') ∧ is_None (_cached_jwks p) = true)).
Proof.
  rewrite validate_token_unfold.
  destruct (get_keycloak_jwks p) as [[jwks|e0] q] eqn:Hget.
  - destruct (jwt_decode _ _ _ _ _ _) as [claims|e1]; [done|].
    intros [= <- <-]. split; [done|]. left. by eexists _, _.
  - intros [= <- <-].
    destruct (is_None (_cached_jwks p)) eqn:Hc.
    + split; [|by right]. rewrite get_keycloak_jwks_empty in Hget by done.
      destruct (fetched _); [done|]. injection Hget as <- _. apply reraised_not_requests.
    + by rewrite get_keycloak_jwks_cached in Hget.
Qed.

Lemma calls_length (n : nat) (p : process) : length (calls n p).1 = n.
Proof.
  revert p. induction n as [|n IH]; intros p; [done|].
  cbn [ResourceServer.calls]. specialize (IH (get_keycloak_jwks p).2).
  destruct (get_keycloak_jwks p) as [r p']. cbn [snd] in IH.
  destruct (calls n p') as [rs p'']. cbn in *. by rewrite IH.
Qed.

(** X10. Once a call has returned a key set, every later call of the
    run returns the same key set. *)
Theorem calls_key_set_stable (n : nat) (p : process) (i j : nat) (v : pyval) :
  (calls n p).1 !! i = Some (Ok v) →
  is_None v = false →
  (i ≤ j < n)%nat →
  (calls n p).1 !! j = Some (Ok v).
Proof.
  revert p i j. induction n as [|n IH]; intros p i j Hi Hv Hij; [lia|].
  cbn [ResourceServer.calls] in *.
  destruct (get_keycloak_jwks p) as [r p'] eqn:Hget.
  pose proof (IH p') as IHp'.
  destruct (calls n p') as [rs p''] eqn:Hcalls. cbn [fst] in *.
  destruct i as [|i].
  - injection Hi as ->. destruct j as [|j]; [done|].
    apply get_keycloak_jwks_returns_cache in Hget as ->.
    rewrite calls_cached in Hcalls by done. injection Hcalls as <- _.
    cbn. apply lookup_replicate_2. lia.
  - destruct j as [|j]; [lia|]. cbn in *. apply (IHp' i j); [done..|lia].
Qed.

End MoreServerFacts.

Section MoreThreadFacts.

Variable provider : nat → string → Z → result response.

Abbreviation step_caller := (ResourceServer.step_caller provider).
Abbreviation step := (ResourceServer.step provider).
Abbreviation run := (ResourceServer.run provider).

Abbreviation sound := (sound provider).

Lemma served_mono (p p' : process) (v : pyval) :
  (upstream_fetches p ≤ upstream_fetches p')%nat →
  served provider p v → served provider p' v.
Proof. intros Hle (k & Hk & Hf). exists k. split; [lia|done]. Qed.

(** One statement of one caller keeps the pool sound. *)
Lemma step_sound (i : nat) (st : process * list caller) : sound st → sound (step i st).
Proof.
  destruct st as [p pool]. intros (Hstore & Hret & Hcache).
  unfold ResourceServer.step. cbn [fst snd] in *.
  destruct (pool !! i) as [c|] eqn:Hi; [|done].
  pose proof (lookup_lt_Some _ _ _ Hi) as Hlt.
  assert (∀ c' j x, <[i:=c']> pool !! j = Some x → (j = i ∧ x = c') ∨ pool !! j = Some x)
    as Hins.
  { intros c' j x Hj. destruct (decide (j = i)) as [->|Hne].
    - rewrite list_lookup_insert_eq in Hj by done. left. by injection Hj.
    - rewrite list_lookup_insert_ne in Hj by done. by right. }
  destruct c as [| |body| |v|e].
  - (* AtTest *)
    cbn [ResourceServer.step_caller].
    destruct (is_None (_cached_jwks p)) eqn:Hc; cbn [fst snd]; split_and!.
    + intros j b [[_ ?]|?]%Hins; [done|eauto].
    + intros j v [[_ ?]|?]%Hins; [done|eauto].
    + destruct Hcache as [?|[_ Hno]]; [by left|]. right. split; [done|].
      intros j [[_ ?]|?]%Hins; [done|]. by eapply Hno.
    + intros j b [[_ ?]|?]%Hins; [done|eauto].
    + intros j v [[_ ?]|?]%Hins; [done|eauto].
    + destruct Hcache as [?|[? _]]; [by left|congruence].
  - (* AtRequest *)
    rewrite step_caller_request.
    destruct (ResourceServer.fetched provider (upstream_fetches p)) as [body|e] eqn:Hf;
      cbn [fst snd]; split_and!.
    + intros j b [[_ [= <-]]|?]%Hins.
      * exists (upstream_fetches p). split; [cbn; lia|done].
      * eapply served_mono; [|eauto]. cbn; lia.
    + intros j v [[_ ?]|?]%Hins; [done|]. eapply served_mono; [|eauto]. cbn; lia.
    + destruct Hcache as [?|[? Hno]].
      * left. eapply served_mono; [|eauto]. cbn; lia.
      * right. split; [done|]. intros j [[_ ?]|?]%Hins; [done|]. by eapply Hno.
    + intros j b [[_ ?]|?]%Hins; [done|]. eapply served_mono; [|eauto]. cbn; lia.
    + intros j v [[_ ?]|?]%Hins; [done|]. eapply served_mono; [|eauto]. cbn; lia.
    + destruct Hcache as [?|[? Hno]].
      * left. eapply served_mono; [|eauto]. cbn; lia.
      * right. split; [done|]. intros j [[_ ?]|?]%Hins; [done|]. by eapply Hno.
  - (* AtStore *)
    cbn [ResourceServer.step_caller fst snd].
    assert (∀ x, served provider p x → served provider (Process body (upstream_fetches p)) x)
      as Hsame by (intros x; by apply served_mono).
    split_and!.
    + intros j b [[_ ?]|?]%Hins; [done|eauto].
    + intros j v [[_ ?]|?]%Hins; [done|eauto].
    + left. cbn. eauto.
  - (* AtReturn *)
    cbn [ResourceServer.step_caller fst snd]. split_and!.
    + intros j b [[_ ?]|?]%Hins; [done|eauto].
    + intros j v [[_ [= ->]]|?]%Hins; [|eauto].
      destruct Hcache as [?|[_ Hno]]; [done|]. by destruct (Hno i).
    + destruct Hcache as [?|[_ Hno]]; [by left|]. by destruct (Hno i).
  - (* Returned *)
    cbn [ResourceServer.step_caller fst snd]. split_and!.
    + intros j b [[_ ?]|?]%Hins; [done|eauto].
    + intros j v' [[_ [= <-]]|?]%Hins; eauto.
    + destruct Hcache as [?|[? Hno]]; [by left|]. right. split; [done|].
      intros j [[_ ?]|?]%Hins; [done|]. by eapply Hno.
  - (* Raised *)
    cbn [ResourceServer.step_caller fst snd]. split_and!.
    + intros j b [[_ ?]|?]%Hins; [done|eauto].
    + intros j v' [[_ ?]|?]%Hins; [done|eauto].
    + destruct Hcache as [?|[? Hno]]; [by left|]. right. split; [done|].
      intros j [[_ ?]|?]%Hins; [done|]. by eapply Hno.
Qed.

Lemma run_sound (schedule : list nat) (st : process * list caller) :
  sound st → sound (run schedule st).
Proof.
  revert st. induction schedule as [|i schedule IH]; intros st Hst; [done|].
  cbn. apply IH. by apply step_sound.
Qed.

(** X11. Callers that race corrupt nothing: on every schedule, a key
    set a caller returns is one the identity provider served in answer
    to a request of the process, and so is the key set left in the
    cache. *)
Theorem concurrent_callers_return_served_keys (n : nat) (schedule : list nat) :
  let st := run schedule (started, replicate n AtTest) in
  (∀ j v, st.2 !! j = Some (Returned v) → served provider st.1 v)
  ∧ (is_None (_cached_jwks st.1) = false → served provider st.1 (_cached_jwks st.1)).
Proof.
  assert (sound (started, replicate n AtTest)) as Hinit.
  { split_and!.
    - by intros j b [? _]%lookup_replicate_1.
    - by intros j v [? _]%lookup_replicate_1.
    - right. split; [done|]. by intros j [? _]%lookup_replicate_1. }
  destruct (run_sound schedule _ Hinit) as (_ & Hret & Hcache).
  split; [done|]. intros Hc. destruct Hcache as [?|[? _]]; [done|congruence].
Qed.

End MoreThreadFacts.

(** ** The extras on concrete inputs *)

(** X1 at the claims segment ["abcd"]. *)
Lemma decode_jwt_reads_second_segment_only_witness :
  App.decode_jwt Doubles.echo_b64decode Doubles.echo_json_loads (PStr "h.abcd.sig")
  = App.decode_jwt Doubles.echo_b64decode Doubles.echo_json_loads (PStr "x.abcd.other")
  ∧ App.decode_jwt Doubles.echo_b64decode Doubles.echo_json_loads (PStr "h.abcd.sig")
    = App.decode_jwt Doubles.echo_b64decode Doubles.echo_json_loads (PStr "x.abcd").
Proof.
  exact (decode_jwt_reads_second_segment_only
           Doubles.echo_b64decode Doubles.echo_json_loads
           "h" "x" "abcd" "sig" "other" eq_refl eq_refl eq_refl).
Defined.

(** X2 at the token ["h.c.s"]. *)
Lemma bearer_token_round_trip_witness :
  bearer_token (Some "Bearer h.c.s") = Some "h.c.s".
Proof. exact (proj2 (bearer_token_round_trip "h.c.s") eq_refl). Defined.


(** X7 at a session of alice and a resource server that answers 401. *)
Lemma call_protected_api_upstream_error_witness :
  let s := App.logged_in (PStr "alice") (PDict Doubles.alice) "h.c.s" (PStr "h2.c2.s2") ∅ in
  let refused := Doubles.error_response 401 "Unauthorized" in
  Routes.call_protected_api (Doubles.resource_server refused) Doubles.no_repr
    (Doubles.response_of refused) s
  = (Ok (Routes.Plain
           (App.Body ("Failed to call protected API: Error calling protected API: "
                      ++ "401 Server Error - Status: 401, Response: Unauthorized") 500)),
     s).
Proof.
  intros s refused.
  apply (call_protected_api_upstream_error
           (Doubles.resource_server refused) Doubles.no_repr (Doubles.response_of refused)
           s "h.c.s" refused (Exn HTTPError "401 Server Error")); by vm_compute.
Defined.

(** X9 at a token and an identity provider that cannot be reached. *)
Lemma validate_token_raises_witness :
  let e := Exn ConnectionError "Could not fetch JWKS from Keycloak: Connection refused" in
  isinstance e RequestException = false
  ∧ ((∃ msg jwks,
        e = Exn ValueError msg
        ∧ ResourceServer.get_keycloak_jwks Doubles.down started = (Ok jwks, Process PNone 1))
     ∨ (ResourceServer.get_keycloak_jwks Doubles.down started = (Raise e, Process PNone 1)
        ∧ is_None (_cached_jwks started) = true)).
Proof.
  exact (validate_token_raises Doubles.down Doubles.jwt_decode
           "RS256.claims.signature" started (Process PNone 1)
           (Exn ConnectionError "Could not fetch JWKS from Keycloak: Connection refused")
           eq_refl).
Defined.

(** X10 at four calls, the first of which cannot reach the identity
    provider: the second call and the fourth return the same key set. *)
Lemma calls_key_set_stable_witness :
  (ResourceServer.calls Doubles.down_then_up 4 started).1 !! 3%nat = Some (Ok Doubles.jwks).
Proof.
  exact (calls_key_set_stable Doubles.down_then_up 4 started 1 3 Doubles.jwks
           eq_refl eq_refl ltac:(lia)).
Defined.
